(** * TC3-HMAC-SHA256 request signing of [tencent_clould_api/api_client/base.py]

    A shallow embedding of [BaseApiRequestFactory]: the canonical request,
    the HMAC-SHA256 key chain, the [Authorization] value and the header
    dictionary, together with the library functions the class calls
    ([hashlib.sha256], [hmac.new], [str.encode], [json.dumps],
    [datetime.utcfromtimestamp], [strftime]). *)

From Stdlib Require Import ZArith NArith List Lia.
From Stdlib.Strings Require Import String Ascii Byte.
From stdpp Require Import base option list gmap strings.

Local Open Scope Z_scope.
Set Warnings "-register-all".

(** ** Python values: text, bytes, exceptions *)

(** A Python [str] is a sequence of code points; [bytes] is a sequence of
    octets. *)
Abbreviation str := (list N).
Abbreviation bytes := (list byte).

(** The exceptions that the modelled code can raise. *)
Inductive exn : Set :=
| UnicodeEncodeError
| ValueError.

Inductive result (A : Type) : Type :=
| Ok (a : A)
| Raise (e : exn).
Arguments Ok {A} a.
Arguments Raise {A} e.

#[global] Instance result_ret : MRet result := fun A a => Ok a.

#[global] Instance result_bind : MBind result := fun A B k r =>
  match r with
  | Ok a => k a
  | Raise e => Raise e
  end.

#[global] Instance result_fmap : FMap result := fun A B f r =>
  match r with
  | Ok a => Ok (f a)
  | Raise e => Raise e
  end.

#[global] Instance exn_eq_dec : EqDecision exn.
Proof. solve_decision. Defined.

#[global] Instance result_eq_dec {A : Type} `{EqDecision A} :
  EqDecision (result A).
Proof. solve_decision. Defined.

Module Py.

(** A string literal of the source, as code points. *)
Definition lit (s : string) : str :=
  map N_of_ascii (list_ascii_of_string s).

Definition byte_of_Z (z : Z) : byte :=
  match Byte.of_N (Z.to_N (z mod 256)) with
  | Some b => b
  | None => x00
  end.

Definition Z_of_byte (b : byte) : Z := Z.of_N (Byte.to_N b).

(** The UTF-8 bytes of one code point. *)
Definition utf8_char (c : N) : bytes :=
  let z := Z.of_N c in
  if z <? 0x80 then [byte_of_Z z]
  else if z <? 0x800 then
    [byte_of_Z (Z.lor 0xC0 (Z.shiftr z 6));
     byte_of_Z (Z.lor 0x80 (Z.land z 0x3F))]
  else if z <? 0x10000 then
    [byte_of_Z (Z.lor 0xE0 (Z.shiftr z 12));
     byte_of_Z (Z.lor 0x80 (Z.land (Z.shiftr z 6) 0x3F));
     byte_of_Z (Z.lor 0x80 (Z.land z 0x3F))]
  else
    [byte_of_Z (Z.lor 0xF0 (Z.shiftr z 18));
     byte_of_Z (Z.lor 0x80 (Z.land (Z.shiftr z 12) 0x3F));
     byte_of_Z (Z.lor 0x80 (Z.land (Z.shiftr z 6) 0x3F));
     byte_of_Z (Z.lor 0x80 (Z.land z 0x3F))].

Definition utf8 (s : str) : bytes := flat_map utf8_char s.

(** The code points the strict error handler accepts: lone surrogates
    (and values beyond the last code point) are refused. *)
Definition encodable_char (c : N) : bool :=
  let z := Z.of_N c in
  (z <? 0x110000) && negb ((0xD800 <=? z) && (z <=? 0xDFFF)).

Definition encodable (s : str) : bool := forallb encodable_char s.

(** [s.encode("utf-8")] *)
Definition encode (s : str) : result bytes :=
  if encodable s then Ok (utf8 s) else Raise UnicodeEncodeError.

(** [s.encode("iso-8859-1")], the encoding [http.client] applies to a
    textual request body. *)
Definition encode_latin1 (s : str) : result bytes :=
  if forallb (fun c => Z.of_N c <? 256) s
  then Ok (map (fun c => byte_of_Z (Z.of_N c)) s)
  else Raise UnicodeEncodeError.

(** Decimal digits of a natural number, most significant first, put in
    front of [acc]; [fuel] bounds the number of digits. *)
Fixpoint digits_fuel (fuel : nat) (z : Z) (acc : str) : str :=
  match fuel with
  | O => acc
  | S fuel' =>
      let acc' := Z.to_N (48 + z mod 10) :: acc in
      if z <? 10 then acc' else digits_fuel fuel' (z / 10) acc'
  end.

Definition digits (z : Z) : str :=
  digits_fuel (S (Z.to_nat (Z.log2 z))) z [].

(** [str(n)] for an [int]. *)
Definition str_of_int (z : Z) : str :=
  if z <? 0 then 45%N :: digits (- z) else digits z.

(** Zero padding on the left up to [width], as the [%0Nd] conversions. *)
Definition zfill (width : nat) (s : str) : str :=
  replicate (width - length s) 48%N ++ s.

Definition hex_digit (z : Z) : N :=
  if z <? 10 then Z.to_N (48 + z) else Z.to_N (87 + z).

(** [sep.join(items)] *)
Fixpoint join (sep : str) (items : list str) : str :=
  match items with
  | [] => []
  | [x] => x
  | x :: rest => x ++ sep ++ join sep rest
  end.

(** Lowercase hexadecimal rendering of a byte string ([hexdigest]). *)
Definition hex (bs : bytes) : str :=
  flat_map (fun b => [hex_digit (Z.shiftr (Z_of_byte b) 4);
                      hex_digit (Z.land (Z_of_byte b) 15)]) bs.

End Py.

(** ** SHA-256 (FIPS 180-4), as [hashlib.sha256] computes it *)

Module SHA256.

Definition w32 (x : Z) : Z := Z.land x 0xFFFFFFFF.

Definition add32 (x y : Z) : Z := w32 (x + y).

Definition rotr (n x : Z) : Z :=
  Z.lor (Z.shiftr x n) (w32 (Z.shiftl x (32 - n))).

Definition Ch (x y z : Z) : Z :=
  Z.lxor (Z.land x y) (Z.land (Z.lxor x 0xFFFFFFFF) z).

Definition Maj (x y z : Z) : Z :=
  Z.lxor (Z.lxor (Z.land x y) (Z.land x z)) (Z.land y z).

Definition Sigma0 (x : Z) : Z :=
  Z.lxor (Z.lxor (rotr 2 x) (rotr 13 x)) (rotr 22 x).

Definition Sigma1 (x : Z) : Z :=
  Z.lxor (Z.lxor (rotr 6 x) (rotr 11 x)) (rotr 25 x).

Definition sigma0 (x : Z) : Z :=
  Z.lxor (Z.lxor (rotr 7 x) (rotr 18 x)) (Z.shiftr x 3).

Definition sigma1 (x : Z) : Z :=
  Z.lxor (Z.lxor (rotr 17 x) (rotr 19 x)) (Z.shiftr x 10).

(** The round constants and the initial hash value are the first 32 bits
    of the fractional parts of the cube roots, respectively square roots,
    of the first primes. *)
Definition is_prime (n : Z) : bool :=
  forallb (fun d => negb (n mod Z.of_nat d =? 0)) (seq 2 (Z.to_nat n - 2)).

(** The 64 primes up to 311. *)
Definition primes : list Z := filter is_prime (map Z.of_nat (seq 2 310)).

(** The largest [x] below [2 ^ bits] with [x ^ k <= n], found bit by bit. *)
Fixpoint int_root (k n : Z) (bits : nat) (x : Z) : Z :=
  match bits with
  | O => x
  | S b =>
      let y := x + 2 ^ Z.of_nat b in
      int_root k n b (if y ^ k <=? n then y else x)
  end.

Definition frac_root (k p : Z) : Z :=
  w32 (int_root k (p * 2 ^ (32 * k)) 40 0).

Definition K : list Z := Eval vm_compute in map (frac_root 3) primes.

(** The eight working variables / the chaining value. *)
Record state : Set := State {
  sa : Z; sb : Z; sc : Z; sd : Z; se : Z; sf : Z; sg : Z; sh : Z
}.

Definition H0 : state :=
  Eval vm_compute in
    let h := map (frac_root 2) (take 8 primes) in
    State (nth 0 h 0) (nth 1 h 0) (nth 2 h 0) (nth 3 h 0)
          (nth 4 h 0) (nth 5 h 0) (nth 6 h 0) (nth 7 h 0).

(** Big-endian 32-bit words of a block. *)
Fixpoint words (bs : list Z) : list Z :=
  match bs with
  | b0 :: b1 :: b2 :: b3 :: rest =>
      Z.lor (Z.shiftl b0 24)
        (Z.lor (Z.shiftl b1 16) (Z.lor (Z.shiftl b2 8) b3)) :: words rest
  | _ => []
  end.

(** Message schedule, kept most recent word first while it is extended. *)
Fixpoint extend (n : nat) (w : list Z) : list Z :=
  match n with
  | O => w
  | S n' =>
      let wt := add32 (add32 (sigma1 (nth 1 w 0)) (nth 6 w 0))
                      (add32 (sigma0 (nth 14 w 0)) (nth 15 w 0)) in
      extend n' (wt :: w)
  end.

Definition schedule (block : list Z) : list Z :=
  rev (extend 48 (rev (words block))).

Definition round (s : state) (kw : Z * Z) : state :=
  let '(State a b c d e f g h) := s in
  let t1 := add32 (add32 (add32 h (Sigma1 e)) (add32 (Ch e f g) (fst kw)))
                  (snd kw) in
  let t2 := add32 (Sigma0 a) (Maj a b c) in
  State (add32 t1 t2) a b c (add32 d t1) e f g.

Definition compress (s : state) (block : list Z) : state :=
  let '(State a b c d e f g h) :=
    fold_left round (combine K (schedule block)) s in
  State (add32 (sa s) a) (add32 (sb s) b) (add32 (sc s) c) (add32 (sd s) d)
        (add32 (se s) e) (add32 (sf s) f) (add32 (sg s) g) (add32 (sh s) h).

(** Padding: a one bit, zeros, and the bit length as a 64-bit big-endian
    number, up to a multiple of 64 bytes. *)
Definition be_bytes (n : nat) (z : Z) : list Z :=
  map (fun i => Z.land (Z.shiftr z (8 * Z.of_nat i)) 0xFF) (rev (seq 0 n)).

Definition pad (msg : list Z) : list Z :=
  let len := Z.of_nat (length msg) in
  let zeros := Z.to_nat ((55 - len) mod 64) in
  msg ++ 0x80 :: replicate zeros 0 ++ be_bytes 8 (8 * len).

Fixpoint blocks (n : nat) (bs : list Z) : list (list Z) :=
  match n with
  | O => []
  | S n' => take 64 bs :: blocks n' (drop 64 bs)
  end.

Definition digest_state (msg : bytes) : state :=
  let padded := pad (map Py.Z_of_byte msg) in
  fold_left compress (blocks (length padded / 64) padded) H0.

Definition state_bytes (s : state) : bytes :=
  map Py.byte_of_Z
    (flat_map (be_bytes 4) [sa s; sb s; sc s; sd s; se s; sf s; sg s; sh s]).

(** [hashlib.sha256(msg).digest()] *)
Definition digest (msg : bytes) : bytes := state_bytes (digest_state msg).

(** [hashlib.sha256(msg).hexdigest()] *)
Definition hexdigest (msg : bytes) : str := Py.hex (digest msg).

End SHA256.

(** ** HMAC (RFC 2104) over SHA-256, as [hmac.new(key, msg, hashlib.sha256)] *)

Module HMAC.

Definition block_size : nat := 64.

(** The object returned by [hmac.new]: the key and the message fed so far. *)
Record t : Set := new { key : bytes; msg : bytes }.

Definition xor_pad (p : Z) (k : bytes) : bytes :=
  map (fun b => Py.byte_of_Z (Z.lxor (Py.Z_of_byte b) p)) k.

(** Keys longer than a block are hashed first; the key is then padded with
    zero bytes to the block size. *)
Definition block_key (k : bytes) : bytes :=
  let k' := if (block_size <? length k)%nat then SHA256.digest k else k in
  k' ++ replicate (block_size - length k') x00.

Definition digest (h : t) : bytes :=
  let k := block_key (key h) in
  SHA256.digest
    (xor_pad 0x5C k ++ SHA256.digest (xor_pad 0x36 k ++ msg h)).

Definition hexdigest (h : t) : str := Py.hex (digest h).

End HMAC.

(** ** [datetime.utcfromtimestamp] and [strftime] *)

Module Datetime.

Record datetime : Set := mk_datetime {
  year : Z; month : Z; day : Z; hour : Z; minute : Z; second : Z
}.

Definition MINYEAR : Z := 1.
Definition MAXYEAR : Z := 9999.

Definition _DI400Y : Z := 146097.
Definition _DI100Y : Z := 36524.
Definition _DI4Y : Z := 1461.

Definition _DAYS_IN_MONTH : list Z :=
  [-1; 31; 28; 31; 30; 31; 30; 31; 31; 30; 31; 30; 31].

Definition _DAYS_BEFORE_MONTH : list Z :=
  [-1; 0; 31; 59; 90; 120; 151; 181; 212; 243; 273; 304; 334].

Definition b2z (b : bool) : Z := if b then 1 else 0.

(** Proleptic Gregorian ordinal (day 1 is 0001-01-01) to year, month, day. *)
Definition _ord2ymd (n : Z) : Z * Z * Z :=
  let n := n - 1 in
  let n400 := n / _DI400Y in
  let n := n mod _DI400Y in
  let year := n400 * 400 + 1 in
  let n100 := n / _DI100Y in
  let n := n mod _DI100Y in
  let n4 := n / _DI4Y in
  let n := n mod _DI4Y in
  let n1 := n / 365 in
  let n := n mod 365 in
  let year := year + (n100 * 100 + n4 * 4 + n1) in
  if (n1 =? 4) || (n100 =? 4) then (year - 1, 12, 31)
  else
    let leapyear := (n1 =? 3) && (negb (n4 =? 24) || (n100 =? 3)) in
    let month := Z.shiftr (n + 50) 5 in
    let preceding :=
      nth (Z.to_nat month) _DAYS_BEFORE_MONTH 0
      + b2z ((2 <? month) && leapyear) in
    if n <? preceding then
      let month := month - 1 in
      let preceding :=
        preceding - (nth (Z.to_nat month) _DAYS_IN_MONTH 0
                     + b2z ((month =? 2) && leapyear)) in
      (year, month, n - preceding + 1)
    else (year, month, n - preceding + 1).

(** Ordinal of 1970-01-01. *)
Definition EPOCH_ORDINAL : Z := 719163.

(** [datetime.utcfromtimestamp(t)] for an integer [t]: the broken-down UTC
    time, with days of 86400 seconds counted from the epoch; a year outside
    [MINYEAR, MAXYEAR] is refused. *)
Definition utcfromtimestamp (t : Z) : result datetime :=
  let '(y, m, d) := _ord2ymd (EPOCH_ORDINAL + t / 86400) in
  let s := t mod 86400 in
  if (MINYEAR <=? y) && (y <=? MAXYEAR) then
    Ok (mk_datetime y m d (s / 3600) (s mod 3600 / 60) (s mod 60))
  else Raise ValueError.

(** The timestamps from the epoch to the last second of year [MAXYEAR]. *)
Definition MAX_TIMESTAMP : Z := 253402300799.

Definition supported (t : Z) : bool := (0 <=? t) && (t <=? MAX_TIMESTAMP).

(** [dt.strftime("%Y-%m-%d")]: year, month and day, zero-padded to four,
    two and two digits (every year from 1970 on has its four digits). *)
Definition strftime_Ymd (dt : datetime) : str :=
  Py.zfill 4 (Py.str_of_int (year dt)) ++ Py.lit "-"
  ++ Py.zfill 2 (Py.str_of_int (month dt)) ++ Py.lit "-"
  ++ Py.zfill 2 (Py.str_of_int (day dt)).

End Datetime.

(** ** [json.dumps] with its default arguments *)

Module Json.

(** The Python objects a request payload is built from. *)
Inductive pyobj : Set :=
| PyNone
| PyBool (b : bool)
| PyInt (z : Z)
| PyStr (s : str)
| PyList (l : list pyobj)
| PyDict (d : list (str * pyobj)).

(** A [dict] with string keys, in insertion order. *)
Abbreviation dict := (list (str * pyobj)).

Definition hex4 (z : Z) : str :=
  [Py.hex_digit (Z.land (Z.shiftr z 12) 15);
   Py.hex_digit (Z.land (Z.shiftr z 8) 15);
   Py.hex_digit (Z.land (Z.shiftr z 4) 15);
   Py.hex_digit (Z.land z 15)].

Definition quote : str := [34%N].
Definition backslash : str := [92%N].

Definition u_escape (z : Z) : str := backslash ++ Py.lit "u" ++ hex4 z.

(** One character of [py_encode_basestring_ascii] ([ensure_ascii=True]):
    everything outside the range from space to tilde is escaped, as are
    the quote and the backslash. *)
Definition escape_char (c : N) : str :=
  let z := Z.of_N c in
  if z =? 34 then backslash ++ quote
  else if z =? 92 then backslash ++ backslash
  else if z =? 10 then backslash ++ Py.lit "n"
  else if z =? 13 then backslash ++ Py.lit "r"
  else if z =? 9 then backslash ++ Py.lit "t"
  else if z =? 8 then backslash ++ Py.lit "b"
  else if z =? 12 then backslash ++ Py.lit "f"
  else if (32 <=? z) && (z <=? 126) then [c]
  else if z <? 0x10000 then u_escape z
  else
    let n := z - 0x10000 in
    u_escape (Z.lor 0xD800 (Z.land (Z.shiftr n 10) 0x3FF))
    ++ u_escape (Z.lor 0xDC00 (Z.land n 0x3FF)).

Definition encode_basestring_ascii (s : str) : str :=
  quote ++ flat_map escape_char s ++ quote.

(** The text [json.dumps(o)] returns. [json.dumps] returns no text at all
    for two kinds of object, on which the interpreter raises before
    anything is signed: an [int] of more digits than the interpreter's
    limit for the conversion to [str] ([ValueError]; 4300 digits by
    default from CPython 3.11 on) and a nesting deeper than the recursion
    limit ([RecursionError]). [dumps] is the serialisation of the objects
    within these limits; what is proved of [__make_headers] below concerns
    payloads that [json.dumps] serialises. *)
Fixpoint dumps (o : pyobj) : str :=
  match o with
  | PyNone => Py.lit "null"
  | PyBool true => Py.lit "true"
  | PyBool false => Py.lit "false"
  | PyInt z => Py.str_of_int z
  | PyStr s => encode_basestring_ascii s
  | PyList l =>
      Py.lit "[" ++ Py.join (Py.lit ", ") (map dumps l) ++ Py.lit "]"
  | PyDict d =>
      Py.lit "{"
      ++ Py.join (Py.lit ", ")
           (map (fun kv =>
                   encode_basestring_ascii (fst kv) ++ Py.lit ": "
                   ++ dumps (snd kv)) d)
      ++ Py.lit "}"
  end.

End Json.

(** ** Request bodies, as [requests.post] prepares them *)

Module Requests.
Import Json.

(** [urllib.parse.quote_plus] with [safe=''], byte by byte: unreserved
    characters stay, a space becomes a plus sign, every other byte is
    percent-escaped in uppercase hexadecimal. *)
Definition always_safe (z : Z) : bool :=
  ((65 <=? z) && (z <=? 90)) || ((97 <=? z) && (z <=? 122))
  || ((48 <=? z) && (z <=? 57))
  || (z =? 95) || (z =? 46) || (z =? 45) || (z =? 126).

Definition upper_hex_digit (z : Z) : N :=
  if z <? 10 then Z.to_N (48 + z) else Z.to_N (55 + z).

Definition quote_byte (b : byte) : str :=
  let z := Py.Z_of_byte b in
  if always_safe z then [Z.to_N z]
  else if z =? 32 then Py.lit "+"
  else [37%N; upper_hex_digit (Z.shiftr z 4); upper_hex_digit (Z.land z 15)].

Definition quote_plus_bytes (bs : bytes) : str := flat_map quote_byte bs.

Definition quote_plus (s : str) : result str :=
  bs ← Py.encode s;
  Ok (quote_plus_bytes bs).

Fixpoint mapM {A B : Type} (f : A -> result B) (l : list A)
  : result (list B) :=
  match l with
  | [] => Ok []
  | a :: l' =>
      b ← f a;
      bs ← mapM f l';
      Ok (b :: bs)
  end.

Section FormEncoding.

(** Python's [repr] of a list or a dict; form encoding reaches it only
    for a container nested inside a list value. *)
Variable repr : pyobj -> str.

(** [str(o)] *)
Definition py_str (o : pyobj) : str :=
  match o with
  | PyNone => Py.lit "None"
  | PyBool true => Py.lit "True"
  | PyBool false => Py.lit "False"
  | PyInt z => Py.str_of_int z
  | PyStr s => s
  | PyList _ | PyDict _ => repr o
  end.

(** A value of the key/value list handed to [urlencode]: text has been
    encoded to bytes, other objects are passed on as they are. *)
Inductive field : Set :=
| FBytes (b : bytes)
| FObj (o : pyobj).

(** The values one entry contributes: itself when it is a string or not
    iterable, otherwise its elements (the keys, for a dict). *)
Definition iter_values (vs : pyobj) : list pyobj :=
  match vs with
  | PyList l => l
  | PyDict d => map (fun kv => PyStr (fst kv)) d
  | _ => [vs]
  end.

Definition encode_pair (k : str) (v : pyobj)
  : result (list (bytes * field)) :=
  match v with
  | PyNone => Ok []
  | PyStr s =>
      kb ← Py.encode k;
      vb ← Py.encode s;
      Ok [(kb, FBytes vb)]
  | _ =>
      kb ← Py.encode k;
      Ok [(kb, FObj v)]
  end.

Definition key_val_list (data : dict) : result (list (bytes * field)) :=
  per_key ← mapM (fun kv =>
               per_value ← mapM (encode_pair (fst kv))
                              (iter_values (snd kv));
               Ok (concat per_value)) data;
  Ok (concat per_key).

(** [urlencode(query, doseq=True)]: the [key=value] items of one pair. *)
Definition urlencode_pair (kv : bytes * field) : result (list str) :=
  let k := quote_plus_bytes (fst kv) in
  let item (v : str) := k ++ Py.lit "=" ++ v in
  match snd kv with
  | FBytes b => Ok [item (quote_plus_bytes b)]
  | FObj (PyList l) =>
      mapM (fun elt => v ← quote_plus (py_str elt); Ok (item v)) l
  | FObj (PyDict d) =>
      mapM (fun kv' => v ← quote_plus (fst kv'); Ok (item v)) d
  | FObj o =>
      v ← quote_plus (py_str o);
      Ok [item v]
  end.

Definition urlencode (query : list (bytes * field)) : result str :=
  items ← mapM urlencode_pair query;
  Ok (Py.join (Py.lit "&") (concat items)).

(** [RequestEncodingMixin._encode_params] on a dict. *)
Definition _encode_params (data : dict) : result str :=
  query ← key_val_list data;
  urlencode query.

(** The two ways [send_request] hands the payload to [requests.post]. *)
Inductive body_arg : Set :=
| JsonArg (payload : dict)
| DataArg (payload : dict).

(** [PreparedRequest.prepare_body]: the bytes put on the wire, [None]
    when the request has no body. *)
Definition prepare_body (arg : body_arg) : result (option bytes) :=
  match arg with
  | JsonArg payload =>
      b ← Py.encode (dumps (PyDict payload));
      Ok (Some b)
  | DataArg [] => Ok None
  | DataArg payload =>
      s ← _encode_params payload;
      b ← Py.encode_latin1 s;
      Ok (Some b)
  end.

End FormEncoding.

End Requests.

(** ** The API request factory *)

Module ApiClient.

Definition nl : str := [10%N].

(** The attributes of a [BaseApiRequestFactory] instance. *)
Record BaseApiRequestFactory : Set := {
  _secret_id : str;
  _secret_key : str;
  _region : str;
  _algorithm : str;
  _canonical_uri : str;
  _http_request_method : str;
  _canonical_query_string : str;
  _signed_headers : str;
  _service : str;
  _host : str;
  _action : str;
  _version : str;
  _content_type : str
}.

Definition __init__ (secret_id secret_key region : str)
  : BaseApiRequestFactory :=
  {| _secret_id := secret_id;
     _secret_key := secret_key;
     _region := region;
     _algorithm := Py.lit "TC3-HMAC-SHA256";
     _canonical_uri := Py.lit "/";
     _http_request_method := Py.lit "POST";
     _canonical_query_string := Py.lit "";
     _signed_headers := Py.lit "content-type;host";
     _service := Py.lit "";
     _host := Py.lit "";
     _action := Py.lit "";
     _version := Py.lit "";
     _content_type := Py.lit "application/json" |}.

(** The five attributes a subclass reassigns after [super().__init__]. *)
Record ServiceDescriptor : Set := {
  service : str;
  host : str;
  action : str;
  version : str;
  content_type : str
}.

(** A subclass instance: [__init__] of the base class followed by the
    assignments of the service attributes. *)
Definition subclass_init (d : ServiceDescriptor)
    (secret_id secret_key region : str) : BaseApiRequestFactory :=
  let self := __init__ secret_id secret_key region in
  {| _secret_id := _secret_id self;
     _secret_key := _secret_key self;
     _region := _region self;
     _algorithm := _algorithm self;
     _canonical_uri := _canonical_uri self;
     _http_request_method := _http_request_method self;
     _canonical_query_string := _canonical_query_string self;
     _signed_headers := _signed_headers self;
     _service := service d;
     _host := host d;
     _action := action d;
     _version := version d;
     _content_type := content_type d |}.

Definition _canonical_headers (self : BaseApiRequestFactory) : str :=
  Py.lit "content-type:" ++ _content_type self ++ nl
  ++ Py.lit "host:" ++ _host self ++ nl.

Definition _endpoint (self : BaseApiRequestFactory) : str :=
  Py.lit "https://" ++ _host self.

Definition __sign (key : bytes) (msg : str) : result HMAC.t :=
  m ← Py.encode msg;
  Ok (HMAC.new key m).

(** The local variables of [__generate_authorization], in the order the
    method computes them. *)
Record locals : Set := {
  canonical_request : str;
  now_date : str;
  credential_scope : str;
  hashed_canonical_request : str;
  signature_content : str;
  secret_date : bytes;
  secret_service : bytes;
  secret_signing : bytes;
  signature : str
}.

Definition __generate_authorization_locals (self : BaseApiRequestFactory)
    (timestamp : Z) (payload : str) : result locals :=
  payload_bytes ← Py.encode payload;
  let canonical_request :=
    _http_request_method self ++ nl
    ++ _canonical_uri self ++ nl
    ++ _canonical_query_string self ++ nl
    ++ _canonical_headers self ++ nl
    ++ _signed_headers self ++ nl
    ++ SHA256.hexdigest payload_bytes in
  dt ← Datetime.utcfromtimestamp timestamp;
  let now_date := Datetime.strftime_Ymd dt in
  let credential_scope :=
    now_date ++ Py.lit "/" ++ _service self ++ Py.lit "/"
    ++ Py.lit "tc3_request" in
  canonical_bytes ← Py.encode canonical_request;
  let hashed_canonical_request := SHA256.hexdigest canonical_bytes in
  let signature_content :=
    _algorithm self ++ nl
    ++ Py.str_of_int timestamp ++ nl
    ++ credential_scope ++ nl
    ++ hashed_canonical_request in
  key ← Py.encode (Py.lit "TC3" ++ _secret_key self);
  h_date ← __sign key now_date;
  let secret_date := HMAC.digest h_date in
  h_service ← __sign secret_date (_service self);
  let secret_service := HMAC.digest h_service in
  h_signing ← __sign secret_service (Py.lit "tc3_request");
  let secret_signing := HMAC.digest h_signing in
  h_signature ← __sign secret_signing signature_content;
  let signature := HMAC.hexdigest h_signature in
  Ok {| canonical_request := canonical_request;
        now_date := now_date;
        credential_scope := credential_scope;
        hashed_canonical_request := hashed_canonical_request;
        signature_content := signature_content;
        secret_date := secret_date;
        secret_service := secret_service;
        secret_signing := secret_signing;
        signature := signature |}.

(** The returned [Authorization] string. *)
Definition __generate_authorization (self : BaseApiRequestFactory)
    (timestamp : Z) (payload : str) : result str :=
  l ← __generate_authorization_locals self timestamp payload;
  Ok ((_algorithm self ++ Py.lit " Credential=" ++ _secret_id self
       ++ Py.lit "/" ++ credential_scope l ++ Py.lit ", ")
      ++ (Py.lit "SignedHeaders=" ++ _signed_headers self
          ++ Py.lit ", Signature=" ++ signature l)).

(** *** The clock and the request handed to the transport *)

(** The wall clock of a call: the successive values [int(time.time())]
    returns, and how many of them have been read. *)
Record world : Type := {
  clock : nat -> Z;
  reads : nat
}.

(** [int(time.time())] *)
Definition time_time (w : world) : Z * world :=
  (clock w (reads w), {| clock := clock w; reads := S (reads w) |}).

Definition __make_headers (self : BaseApiRequestFactory)
    (payload : Json.dict) (w : world) : result (gmap str str) * world :=
  let '(timestamp, w) := time_time w in
  (authorization ←
     __generate_authorization self timestamp
       (Json.dumps (Json.PyDict payload));
   Ok (<[Py.lit "Authorization" := authorization]>
       (<[Py.lit "Content-Type" := _content_type self]>
       (<[Py.lit "Host" := _host self]>
       (<[Py.lit "X-TC-Action" := _action self]>
       (<[Py.lit "X-TC-Timestamp" := Py.str_of_int timestamp]>
       (<[Py.lit "X-TC-Version" := _version self]>
       (<[Py.lit "X-TC-Region" := _region self]>
       (<[Py.lit "X-TC-Language" := Py.lit "zh-CN"]> ∅)))))))),
   w).

(** The POST request [requests.post] sends: the URL and the headers it is
    given, and the body it prepares from its [json=] or [data=] argument. *)
Record http_request : Type := {
  url : str;
  headers : gmap str str;
  body : option bytes
}.

Section Transport.

Variable repr : Json.pyobj -> str.

Definition requests_post (u : str) (hs : gmap str str)
    (arg : Requests.body_arg) : result http_request :=
  b ← Requests.prepare_body repr arg;
  Ok {| url := u; headers := hs; body := b |}.

(** [send_request] up to the POST it issues (lines 147 to 152): the
    request that goes on the wire. The exchange with the server and the
    decoding of its response are not part of the signing core. *)
Definition send_request (self : BaseApiRequestFactory)
    (payload : Json.dict) (w : world) : result http_request * world :=
  match __make_headers self payload w with
  | (Ok hs, w) =>
      if decide (_content_type self = Py.lit "application/json") then
        (requests_post (_endpoint self) hs (Requests.JsonArg payload), w)
      else
        (requests_post (_endpoint self) hs (Requests.DataArg payload), w)
  | (Raise e, w) => (Raise e, w)
  end.

End Transport.

End ApiClient.

(** ** The signing scheme as the specification words it *)

Module Spec.

Definition nl : str := [10%N].

(** The fixed literal identifying the signing scheme. *)
Definition algorithm_id : str := Py.lit "TC3-HMAC-SHA256".

(** Canonicalizer: the six components joined by newlines, the last one
    being the lowercase hex SHA-256 of the payload bytes. *)
Definition canonical_request
    (method canonical_uri canonical_query_string canonical_headers_block
       signed_headers : str) (payload_bytes : bytes) : str :=
  Py.join nl
    [method; canonical_uri; canonical_query_string;
     canonical_headers_block; signed_headers;
     Py.hex (SHA256.digest payload_bytes)].

(** HMAC-SHA256 of a text message under a key of raw bytes; the result
    is the raw digest. *)
Definition HMAC_SHA256 (key : bytes) (msg : str) : bytes :=
  HMAC.digest (HMAC.new key (Py.utf8 msg)).

(** The UTC calendar date of a timestamp, formatted YYYY-MM-DD. *)
Definition date (timestamp : Z) : str :=
  let '(y, m, d) :=
    Datetime._ord2ymd (Datetime.EPOCH_ORDINAL + timestamp / 86400) in
  Py.zfill 4 (Py.str_of_int y) ++ Py.lit "-"
  ++ Py.zfill 2 (Py.str_of_int m) ++ Py.lit "-"
  ++ Py.zfill 2 (Py.str_of_int d).

Definition credential_scope (date service : str) : str :=
  date ++ Py.lit "/" ++ service ++ Py.lit "/tc3_request".

Definition string_to_sign (timestamp : Z) (credential_scope : str)
    (canonical_request : str) : str :=
  Py.join nl
    [algorithm_id; Py.str_of_int timestamp; credential_scope;
     Py.hex (SHA256.digest (Py.utf8 canonical_request))].

Definition k_date (secret_key : str) (date : str) : bytes :=
  HMAC_SHA256 (Py.utf8 (Py.lit "TC3" ++ secret_key)) date.

Definition k_service (secret_key date service : str) : bytes :=
  HMAC_SHA256 (k_date secret_key date) service.

Definition k_signing (secret_key date service : str) : bytes :=
  HMAC_SHA256 (k_service secret_key date service) (Py.lit "tc3_request").

(** SignatureChain: the final signature, lowercase hex. *)
Definition signature (secret_key : str) (timestamp : Z) (service : str)
    (canonical_request : str) : str :=
  let d := date timestamp in
  Py.hex
    (HMAC_SHA256 (k_signing secret_key d service)
       (string_to_sign timestamp (credential_scope d service)
          canonical_request)).

(** AuthorizationBuilder: the [Authorization] header value. *)
Definition authorization
    (algorithm_id secret_id credential_scope signed_headers signature : str)
    : str :=
  algorithm_id ++ Py.lit " Credential=" ++ secret_id ++ Py.lit "/"
  ++ credential_scope ++ Py.lit ", SignedHeaders=" ++ signed_headers
  ++ Py.lit ", Signature=" ++ signature.

(** The header mapping handed to the transport. *)
Definition header_map
    (authorization content_type host action timestamp version region
       language : str) : gmap str str :=
  list_to_map
    [ (Py.lit "Authorization", authorization);
      (Py.lit "Content-Type", content_type);
      (Py.lit "Host", host);
      (Py.lit "X-TC-Action", action);
      (Py.lit "X-TC-Timestamp", timestamp);
      (Py.lit "X-TC-Version", version);
      (Py.lit "X-TC-Region", region);
      (Py.lit "X-TC-Language", language) ].

(** The header names a [SignedHeaders] value lists, separated by [sep]. *)
Fixpoint split (sep : N) (s : str) : list str :=
  match s with
  | [] => [[]]
  | c :: s' =>
      if (c =? sep)%N then [] :: split sep s'
      else
        match split sep s' with
        | name :: names => (c :: name) :: names
        | [] => [[c]]
        end
  end.


(** The keys of the header mapping handed to the transport. *)
Definition header_keys : list str :=
  map Py.lit
    ["Authorization"; "Content-Type"; "Host"; "X-TC-Action";
     "X-TC-Timestamp"; "X-TC-Version"; "X-TC-Region"; "X-TC-Language"].

End Spec.

(** ** Sample data *)

Module Sample.
Import ApiClient.

Definition ascii_bytes (s : string) : bytes := Py.utf8 (Py.lit s).

(** The CVM descriptor of the round-trip scenario. *)
Definition cvm : ServiceDescriptor :=
  {| service := Py.lit "cvm";
     host := Py.lit "cvm.tencentcloudapi.com";
     action := Py.lit "DescribeInstances";
     version := Py.lit "2017-03-12";
     content_type := Py.lit "application/json" |}.

(** The same API family with the other supported content type. *)
Definition cvm_form : ServiceDescriptor :=
  {| service := Py.lit "cvm";
     host := Py.lit "cvm.tencentcloudapi.com";
     action := Py.lit "DescribeInstances";
     version := Py.lit "2017-03-12";
     content_type := Py.lit "multipart/form-data" |}.

Definition secret_id : str := Py.lit "AKIDEXAMPLE".
Definition secret_key : str := Py.lit "SecretKeyExample".
Definition region : str := Py.lit "ap-guangzhou".

Definition client (d : ServiceDescriptor) : BaseApiRequestFactory :=
  subclass_init d secret_id secret_key region.

(** [{"Limit": 10, "Offset": 0}] *)
Definition payload : Json.dict :=
  [(Py.lit "Limit", Json.PyInt 10); (Py.lit "Offset", Json.PyInt 0)].

(** A clock that advances by one second per reading. *)
Definition ticking (start : Z) : world :=
  {| clock := fun n => start + Z.of_nat n; reads := 0 |}.

(** A stand-in for [repr] where its value does not matter. *)
Definition no_repr (o : Json.pyobj) : str := [].

End Sample.

(** ** Inputs on which signing raises no exception *)

(** The four attributes that reach an [encode] call are free of lone
    surrogates, and the timestamp has a calendar date. *)
Definition signable (d : ApiClient.ServiceDescriptor) (secret_key : str)
    (timestamp : Z) : bool :=
  Py.encodable (ApiClient.content_type d)
  && Py.encodable (ApiClient.host d)
  && Py.encodable secret_key
  && Py.encodable (ApiClient.service d)
  && Datetime.supported timestamp.

Definition well_formed (d : ApiClient.ServiceDescriptor) (secret_key : str)
    (timestamp : Z) (payload : str) : bool :=
  Py.encodable payload && signable d secret_key timestamp.

(** The canonical request of a subclass instance, by the specification's
    canonicalizer: method [POST], URI [/], empty query string, the two
    canonical header lines, and the fixed signed-header list. *)
Definition canonical_request_of (d : ApiClient.ServiceDescriptor)
    (payload : str) : str :=
  Spec.canonical_request (Py.lit "POST") (Py.lit "/") (Py.lit "")
    (Py.lit "content-type:" ++ ApiClient.content_type d ++ Spec.nl
     ++ Py.lit "host:" ++ ApiClient.host d ++ Spec.nl)
    (Py.lit "content-type;host") (Py.utf8 payload).

(** The values the specification gives to the quantities that
    [__generate_authorization] computes on its way. *)
Definition signing_values (d : ApiClient.ServiceDescriptor)
    (secret_key : str) (timestamp : Z) (payload : str) : ApiClient.locals :=
  let cr := canonical_request_of d payload in
  let date := Spec.date timestamp in
  let scope := Spec.credential_scope date (ApiClient.service d) in
  {| ApiClient.canonical_request := cr;
     ApiClient.now_date := date;
     ApiClient.credential_scope := scope;
     ApiClient.hashed_canonical_request :=
       Py.hex (SHA256.digest (Py.utf8 cr));
     ApiClient.signature_content := Spec.string_to_sign timestamp scope cr;
     ApiClient.secret_date := Spec.k_date secret_key date;
     ApiClient.secret_service :=
       Spec.k_service secret_key date (ApiClient.service d);
     ApiClient.secret_signing :=
       Spec.k_signing secret_key date (ApiClient.service d);
     ApiClient.signature :=
       Spec.signature secret_key timestamp (ApiClient.service d) cr |}.

(** The [Authorization] value the specification assigns to a call. *)
Definition authorization_of (d : ApiClient.ServiceDescriptor)
    (secret_id secret_key : str) (timestamp : Z) (payload : str) : str :=
  Spec.authorization Spec.algorithm_id secret_id
    (Spec.credential_scope (Spec.date timestamp) (ApiClient.service d))
    (Py.lit "content-type;host")
    (Spec.signature secret_key timestamp (ApiClient.service d)
       (canonical_request_of d payload)).

(** The clock after one reading. *)
Definition advance (w : ApiClient.world) : ApiClient.world :=
  {| ApiClient.clock := ApiClient.clock w;
     ApiClient.reads := S (ApiClient.reads w) |}.

(** The value of the next clock reading. *)
Definition now (w : ApiClient.world) : Z :=
  ApiClient.clock w (ApiClient.reads w).

(** The header mapping of a subclass instance around an [Authorization]
    value and a timestamp. *)
Definition headers_of (d : ApiClient.ServiceDescriptor) (region : str)
    (authorization : str) (timestamp : Z) : gmap str str :=
  Spec.header_map authorization (ApiClient.content_type d)
    (ApiClient.host d) (ApiClient.action d) (Py.str_of_int timestamp)
    (ApiClient.version d) region (Py.lit "zh-CN").

(** The value of a decimal numeral, most significant digit first. *)
Definition decimal_value (s : str) : Z :=
  fold_left (fun a c => 10 * a + (Z.of_N c - 48)) s 0.

Definition is_digit (c : N) : bool := (48 <=? c)%N && (c <=? 57)%N.

Definition is_lower_hex (c : N) : bool :=
  is_digit c || ((97 <=? c)%N && (c <=? 102)%N).

Definition is_ascii (c : N) : bool := (c <? 128)%N.

(** A non-empty text that does not open with a brace. *)
Definition starts_without_brace (s : str) : bool :=
  match s with
  | [] => false
  | c :: _ => negb (c =? 123)%N
  end.

(** The value of a lowercase hexadecimal digit. *)
Definition unhex_digit (c : N) : Z :=
  if (c <? 97)%N then Z.of_N c - 48 else Z.of_N c - 87.

(** ** The response envelope *)

(** A result that is a value or one of the exceptions of type [E]. *)
Inductive outcome (E A : Type) : Type :=
| Return (a : A)
| Throw (e : E).
Arguments Return {E A} a.
Arguments Throw {E A} e.

#[global] Instance outcome_bind {E : Type} : MBind (outcome E) :=
  fun A B k r =>
    match r with
    | Return a => k a
    | Throw e => Throw e
    end.

Module Response.
Import Json.

(** What the decoding of a response can raise. *)
Inductive error : Set :=
| AttributeError
| KeyError (key : str)
| TypeError
| TencentCloudSDKException (code message request_id : pyobj).

(** The entry of a dict under a key; the keys of a dict are distinct. *)
Fixpoint dict_get (key : str) (d : dict) : option pyobj :=
  match d with
  | [] => None
  | (k, v) :: d' => if decide (k = key) then Some v else dict_get key d'
  end.

(** [o.get(key)]: only a dict has the method; a missing key gives [None]. *)
Definition get (o : pyobj) (key : str) : outcome error pyobj :=
  match o with
  | PyDict d => Return (default PyNone (dict_get key d))
  | _ => Throw AttributeError
  end.

(** [o[key]] with a string key: a dict raises [KeyError] on a missing key,
    any other object raises [TypeError]. *)
Definition getitem (o : pyobj) (key : str) : outcome error pyobj :=
  match o with
  | PyDict d =>
      match dict_get key d with
      | Some v => Return v
      | None => Throw (KeyError key)
      end
  | _ => Throw TypeError
  end.

(** The truth value of an object in a condition. *)
Definition truthy (o : pyobj) : bool :=
  match o with
  | PyNone => false
  | PyBool b => b
  | PyInt z => negb (z =? 0)
  | PyStr [] => false
  | PyStr (_ :: _) => true
  | PyList [] => false
  | PyList (_ :: _) => true
  | PyDict [] => false
  | PyDict (_ :: _) => true
  end.

(** The end of [send_request] (lines 154 to 160) and of
    [send_async_request] (lines 178 to 184), on the decoded JSON of the
    response. *)
Definition decode_response (response_json : pyobj) : outcome error pyobj :=
  data ← get response_json (Py.lit "Response");
  err ← get data (Py.lit "Error");
  if truthy err then
    e ← getitem data (Py.lit "Error");
    code ← getitem e (Py.lit "Code");
    e' ← getitem data (Py.lit "Error");
    message ← getitem e' (Py.lit "Message");
    request_id ← getitem data (Py.lit "RequestId");
    Throw (TencentCloudSDKException code message request_id)
  else Return data.

End Response.

(** ** The workbook reader of [excel/xlsx.py] *)

Module Xlsx.

Section Workbook.

(** Cell contents that are neither text nor empty (numbers, dates). *)
Variable other : Type.

Inductive content : Type :=
| CNone
| CStr (s : str)
| COther (o : other).

(** An [openpyxl] cell, of which only [.value] is read. *)
Record cell : Type := { value : content }.

(** An [openpyxl] worksheet, as far as the class looks at it:
    [sheet.max_row], [sheet[n]] and [sheet.iter_rows()]. *)
Record worksheet : Type := {
  max_row : Z;
  getitem : Z -> list cell;
  iter_rows : list (list cell)
}.

Inductive error : Set :=
| SystemError_file_missing
| LoadError
| ValueError_workbook_not_open
| ValueError_sheet_not_selected
| ValueError_row_below_one
| KeyError (sheet_name : str)
| StopIteration
| IndexError.

(** [os.path.exists] and [load_workbook]; a failed load is [None]. *)
Variable path_exists : str -> bool.
Variable load_workbook : str -> option (gmap str worksheet).

Record XlsxWorkbook : Type := {
  workbook : option (gmap str worksheet);
  sheet : option worksheet
}.

Definition get_row_value (row : list cell) : option (list content) :=
  match row with
  | [] => None
  | _ => Some (map value row)
  end.

Definition open_workbook (self : XlsxWorkbook) (filename : str)
  : outcome error XlsxWorkbook :=
  if negb (path_exists filename) then Throw SystemError_file_missing
  else
    match load_workbook filename with
    | Some wb => Return {| workbook := Some wb; sheet := sheet self |}
    | None => Throw LoadError
    end.

Definition select_sheet (self : XlsxWorkbook) (sheet_name : str)
  : outcome error XlsxWorkbook :=
  match workbook self with
  | None => Throw ValueError_workbook_not_open
  | Some wb =>
      match wb !! sheet_name with
      | Some ws => Return {| workbook := workbook self; sheet := Some ws |}
      | None => Throw (KeyError sheet_name)
      end
  end.

Definition __init__ (filename sheet_name : str)
  : outcome error XlsxWorkbook :=
  let self := {| workbook := None; sheet := None |} in
  self ← (if bool_decide (filename = []) then Return self
          else open_workbook self filename);
  match workbook self with
  | Some _ =>
      if bool_decide (sheet_name = []) then Return self
      else select_sheet self sheet_name
  | None => Return self
  end.

Definition read_sheet_header (self : XlsxWorkbook)
  : outcome error (option (list content)) :=
  match sheet self with
  | None => Throw ValueError_sheet_not_selected
  | Some ws =>
      if max_row ws =? 0 then Return None
      else Return (get_row_value (getitem ws 1))
  end.

Definition read_iter_sheet_data (self : XlsxWorkbook)
  : outcome error (option (list (list cell))) :=
  match sheet self with
  | None => Throw ValueError_sheet_not_selected
  | Some ws =>
      if max_row ws <? 2 then Return None
      else
        match iter_rows ws with
        | [] => Throw StopIteration
        | _ :: rest => Return (Some rest)
        end
  end.

Definition read_sheet_row (self : XlsxWorkbook) (row_num : Z)
  : outcome error (option (list content)) :=
  match sheet self with
  | None => Throw ValueError_sheet_not_selected
  | Some ws =>
      if row_num <? 1 then Throw ValueError_row_below_one
      else if max_row ws <? row_num then Return None
      else Return (get_row_value (getitem ws row_num))
  end.

(** [x == header] for a text [header]. *)
Definition is_header (header : str) (x : content) : bool :=
  match x with
  | CStr s => bool_decide (s = header)
  | _ => false
  end.

(** [header in headers] *)
Definition contains (header : str) (headers : list content) : bool :=
  existsb (is_header header) headers.

(** [headers.index(header)], for a header that occurs. *)
Fixpoint index (header : str) (headers : list content) : nat :=
  match headers with
  | [] => O
  | x :: rest => if is_header header x then O else S (index header rest)
  end.

(** The result is a cell content, [None] being the empty content. *)
Definition read_sheet_cell (self : XlsxWorkbook) (row_num : Z)
    (header : str) : outcome error content :=
  headers ← read_sheet_header self;
  match headers with
  | None => Return CNone
  | Some headers =>
      if negb (contains header headers) then Return CNone
      else
        row ← read_sheet_row self row_num;
        match row with
        | None => Return CNone
        | Some row =>
            match row !! index header headers with
            | Some x => Return x
            | None => Throw IndexError
            end
        end
  end.

Definition get_row_cell_value (self : XlsxWorkbook) (row : list cell)
    (header : str) : outcome error content :=
  match row with
  | [] => Return CNone
  | _ =>
      headers ← read_sheet_header self;
      match headers with
      | None => Return CNone
      | Some headers =>
          if negb (contains header headers) then Return CNone
          else
            match row !! index header headers with
            | Some c => Return (value c)
            | None => Throw IndexError
            end
      end
  end.

End Workbook.

Arguments CNone {other}.
Arguments CStr {other} s.
Arguments COther {other} o.
Arguments value {other} c.
Arguments max_row {other} w.
Arguments getitem {other} w n.
Arguments iter_rows {other} w.
Arguments workbook {other} x.
Arguments sheet {other} x.
Arguments Build_XlsxWorkbook {other} workbook sheet.
Arguments get_row_value {other} row.
Arguments open_workbook {other} path_exists load_workbook self filename.
Arguments select_sheet {other} self sheet_name.
Arguments __init__ {other} path_exists load_workbook filename sheet_name.
Arguments read_sheet_header {other} self.
Arguments read_iter_sheet_data {other} self.
Arguments read_sheet_row {other} self row_num.
Arguments is_header {other} header x.
Arguments contains {other} header headers.
Arguments index {other} header headers.
Arguments read_sheet_cell {other} self row_num header.
Arguments get_row_cell_value {other} self row header.

End Xlsx.

(** A sample sheet: a header row with a repeated name and two data
    rows; numbers stand for the non-text contents. *)
Module SampleSheet.
Import Xlsx.

Definition text (s : string) : cell Z := {| value := CStr (Py.lit s) |}.
Definition number (z : Z) : cell Z := {| value := COther z |}.

Definition rows : list (list (cell Z)) :=
  [ [text "name"; text "age"; text "name"];
    [text "ann"; number 31; text "lee"];
    [text "bob"; number 27; text "ray"] ].

Definition people : worksheet Z :=
  {| max_row := 3;
     getitem := fun n => nth (Z.to_nat (n - 1)) rows [];
     iter_rows := rows |}.

Definition book : gmap str (worksheet Z) := {[ Py.lit "people" := people ]}.

Definition reader : XlsxWorkbook Z :=
  {| workbook := Some book; sheet := Some people |}.

(** A file system with the one file [people.xlsx]. *)
Definition path_exists (filename : str) : bool :=
  bool_decide (filename = Py.lit "people.xlsx").

Definition load_workbook (filename : str) : option (gmap str (worksheet Z)) :=
  if path_exists filename then Some book else None.

End SampleSheet.

(** * Validation of the library models against reference values *)

Example sha256_abc :
  SHA256.hexdigest (Sample.ascii_bytes "abc")
  = Py.lit "ba7816bf8f01cfea414140de5dae2223b00361a396177a9cb410ff61f20015ad".
Proof. vm_compute. reflexivity. Qed.

Example sha256_empty :
  SHA256.hexdigest []
  = Py.lit "e3b0c44298fc1c149afbf4c8996fb92427ae41e4649b934ca495991b7852b855".
Proof. vm_compute. reflexivity. Qed.

Example sha256_two_blocks :
  SHA256.hexdigest
    (Sample.ascii_bytes
       "abcdbcdecdefdefgefghfghighijhijkijkljklmklmnlmnomnopnopq")
  = Py.lit "248d6a61d20638b8e5c026930c3e6039a33ce45964ff2167f6ecedd419db06c1".
Proof. vm_compute. reflexivity. Qed.

Example hmac_rfc4231_case2 :
  HMAC.hexdigest
    (HMAC.new (Sample.ascii_bytes "Jefe")
       (Sample.ascii_bytes "what do ya want for nothing?"))
  = Py.lit "5bdcc146bf60754e6a042426089575c75a003f089d2739839dec58b964ec3843".
Proof. vm_compute. reflexivity. Qed.

Example hmac_rfc4231_case6 :
  HMAC.hexdigest
    (HMAC.new (replicate 131 xaa)
       (Sample.ascii_bytes
          "Test Using Larger Than Block-Size Key - Hash Key First"))
  = Py.lit "60e431591ee0b67f0d8a26aacbf5b77f8e0bc6213728c5140546040f0ee37f54".
Proof. vm_compute. reflexivity. Qed.

Example utf8_samples :
  Py.encode [233; 0x20AC; 0x1F600]%N
  = Ok [xc3; xa9; xe2; x82; xac; xf0; x9f; x98; x80]
  /\ Py.encode [0xD800%N] = Raise UnicodeEncodeError.
Proof. split; vm_compute; reflexivity. Qed.

Example str_of_int_samples :
  Py.str_of_int 1704067199 = Py.lit "1704067199"
  /\ Py.str_of_int 0 = Py.lit "0"
  /\ Py.str_of_int (-15) = Py.lit "-15".
Proof. repeat split; vm_compute; reflexivity. Qed.

Example utcfromtimestamp_samples :
  forallb
    (fun '(t, s) =>
       bool_decide
         (Datetime.strftime_Ymd <$> Datetime.utcfromtimestamp t
          = Ok (Py.lit s)))
    [ (0, "1970-01-01"); (86399, "1970-01-01"); (86400, "1970-01-02");
      (951782400, "2000-02-29"); (951868799, "2000-02-29");
      (951868800, "2000-03-01"); (1700000000, "2023-11-14");
      (1704067199, "2023-12-31"); (1704067200, "2024-01-01");
      (4102444800, "2100-01-01"); (4107542400, "2100-03-01");
      (13569465599, "2399-12-31"); (13569465600, "2400-01-01");
      (253402300799, "9999-12-31"); (-1, "1969-12-31");
      (-62135596800, "0001-01-01") ]
  = true
  /\ Datetime.utcfromtimestamp 253402300800 = Raise ValueError
  /\ Datetime.utcfromtimestamp (-62135596801) = Raise ValueError.
Proof. repeat split; vm_compute; reflexivity. Qed.

Example json_dumps_samples :
  Json.dumps (Json.PyDict Sample.payload)
  = Py.lit "{" ++ Json.quote ++ Py.lit "Limit" ++ Json.quote
    ++ Py.lit ": 10, " ++ Json.quote ++ Py.lit "Offset" ++ Json.quote
    ++ Py.lit ": 0}"
  /\ Json.dumps
       (Json.PyList
          [Json.PyNone; Json.PyBool true; Json.PyInt (-5); Json.PyList [];
           Json.PyDict []; Json.PyStr [233; 127; 10; 0x1F600]%N])
     = Py.lit "[null, true, -5, [], {}, " ++ Json.quote
       ++ Json.backslash ++ Py.lit "u00e9" ++ Json.backslash ++ Py.lit "u007f"
       ++ Json.backslash ++ Py.lit "n" ++ Json.backslash ++ Py.lit "ud83d"
       ++ Json.backslash ++ Py.lit "ude00" ++ Json.quote ++ Py.lit "]".
Proof. split; vm_compute; reflexivity. Qed.

Example form_encoding_sample :
  Requests._encode_params Sample.no_repr
    [ (Py.lit "a b", Json.PyStr (Py.lit "x&y=z~"));
      (Py.lit "L",
       Json.PyList [Json.PyInt 1; Json.PyNone; Json.PyStr (Py.lit "s");
                    Json.PyBool true]);
      (Py.lit "n", Json.PyNone);
      (Py.lit "d", Json.PyDict [(Py.lit "k1", Json.PyInt 1)]);
      (Py.lit "t", Json.PyBool false) ]
  = Ok (Py.lit "a+b=x%26y%3Dz~&L=1&L=s&L=True&d=k1&t=False").
Proof. vm_compute. reflexivity. Qed.

(** The round trip of the signer on the sample data, against the value a
    reference implementation of the published scheme computes. *)
Example authorization_golden :
  ApiClient.__generate_authorization (Sample.client Sample.cvm) 1700000000
    (Json.dumps (Json.PyDict Sample.payload))
  = Ok (Py.lit "TC3-HMAC-SHA256 Credential=AKIDEXAMPLE/2023-11-14/cvm/tc3_request, SignedHeaders=content-type;host, Signature=c61571989a6b29fe55c8089e1250201464d565f907e11777d582316df0da1e87").
Proof. vm_compute. reflexivity. Qed.

(** * Properties of the library models *)

Section PyFacts.

Lemma encode_ok (s : str) :
  Py.encodable s = true -> Py.encode s = Ok (Py.utf8 s).
Proof. unfold Py.encode. intros ->. reflexivity. Qed.

Lemma encodable_app (a b : str) :
  Py.encodable (a ++ b) = Py.encodable a && Py.encodable b.
Proof. unfold Py.encodable. apply forallb_app. Qed.

Lemma utf8_app (a b : str) : Py.utf8 (a ++ b) = Py.utf8 a ++ Py.utf8 b.
Proof. unfold Py.utf8. apply flat_map_app. Qed.

Lemma digit_encodable (c : N) :
  is_digit c = true -> Py.encodable_char c = true.
Proof.
  unfold is_digit, Py.encodable_char. intros H.
  apply andb_true_iff in H as [H1 H2].
  apply N.leb_le in H1, H2.
  apply andb_true_iff. split.
  - apply Z.ltb_lt. lia.
  - apply negb_true_iff, andb_false_iff. left. apply Z.leb_gt. lia.
Qed.

Lemma lower_hex_encodable (c : N) :
  is_lower_hex c = true -> Py.encodable_char c = true.
Proof.
  unfold is_lower_hex. intros H. apply orb_true_iff in H as [H | H].
  - now apply digit_encodable.
  - apply andb_true_iff in H as [H1 H2]. apply N.leb_le in H1, H2.
    unfold Py.encodable_char. apply andb_true_iff. split.
    + apply Z.ltb_lt. lia.
    + apply negb_true_iff, andb_false_iff. left. apply Z.leb_gt. lia.
Qed.

Lemma decimal_digit (z : Z) : is_digit (Z.to_N (48 + z mod 10)) = true.
Proof.
  pose proof (Z.mod_pos_bound z 10 ltac:(lia)).
  unfold is_digit. apply andb_true_iff. split; apply N.leb_le; lia.
Qed.

Lemma digits_fuel_digits (fuel : nat) :
  forall z acc,
    forallb is_digit acc = true ->
    forallb is_digit (Py.digits_fuel fuel z acc) = true.
Proof.
  induction fuel as [| fuel IH]; intros z acc Hacc; simpl; [assumption |].
  assert (forallb is_digit (Z.to_N (48 + z mod 10) :: acc) = true) as Hacc'
    by (simpl; rewrite decimal_digit, Hacc; reflexivity).
  destruct (z <? 10); [exact Hacc' | now apply IH].
Qed.

Lemma digits_all_digits (z : Z) : forallb is_digit (Py.digits z) = true.
Proof. unfold Py.digits. now apply digits_fuel_digits. Qed.

(** The numeral [digits_fuel] puts in front of the accumulator denotes
    the number, as soon as the fuel covers its binary length. *)
Lemma digits_fuel_value (fuel : nat) :
  forall z acc,
    0 <= z < 2 ^ Z.of_nat fuel ->
    exists ds,
      Py.digits_fuel fuel z acc = ds ++ acc /\ decimal_value ds = z.
Proof.
  induction fuel as [| fuel IH]; intros z acc Hz.
  - simpl in Hz. assert (z = 0) as -> by lia.
    exists []. split; reflexivity.
  - cbn [Py.digits_fuel]. destruct (z <? 10) eqn:Hlt.
    + apply Z.ltb_lt in Hlt. exists [Z.to_N (48 + z mod 10)]. split.
      * reflexivity.
      * unfold decimal_value. simpl.
        rewrite Z.mod_small by lia. lia.
    + apply Z.ltb_ge in Hlt.
      destruct (IH (z / 10) (Z.to_N (48 + z mod 10) :: acc)) as (ds & E & V).
      { rewrite Nat2Z.inj_succ, Z.pow_succ_r in Hz by lia.
        split; [apply Z.div_pos; lia |].
        apply Z.div_lt_upper_bound; lia. }
      exists (ds ++ [Z.to_N (48 + z mod 10)]). split.
      * rewrite E, <- app_assoc. reflexivity.
      * unfold decimal_value in *. rewrite fold_left_app, V. simpl.
        pose proof (Z.mod_pos_bound z 10 ltac:(lia)).
        pose proof (Z.div_mod z 10 ltac:(lia)). lia.
Qed.

Lemma digits_value (z : Z) : 0 <= z -> decimal_value (Py.digits z) = z.
Proof.
  intros Hz. unfold Py.digits.
  destruct (digits_fuel_value (S (Z.to_nat (Z.log2 z))) z []) as (ds & E & V).
  - split; [assumption |].
    destruct (Z.eq_dec z 0) as [-> | Hnz]; [reflexivity |].
    rewrite Nat2Z.inj_succ, Z2Nat.id by apply Z.log2_nonneg.
    apply Z.log2_spec. lia.
  - rewrite E, app_nil_r. exact V.
Qed.

Lemma str_of_int_value (z : Z) :
  0 <= z ->
  decimal_value (Py.str_of_int z) = z
  /\ forallb is_digit (Py.str_of_int z) = true.
Proof.
  intros Hz. unfold Py.str_of_int.
  destruct (z <? 0) eqn:E; [apply Z.ltb_lt in E; lia |].
  split; [now apply digits_value | apply digits_all_digits].
Qed.

Lemma forallb_impl_encodable (P : N -> bool) (s : str) :
  (forall c, P c = true -> Py.encodable_char c = true) ->
  forallb P s = true -> Py.encodable s = true.
Proof.
  intros HP H. unfold Py.encodable.
  apply forallb_forall. intros c Hc.
  apply HP. revert c Hc. now apply forallb_forall.
Qed.

Lemma str_of_int_encodable (z : Z) : Py.encodable (Py.str_of_int z) = true.
Proof.
  unfold Py.str_of_int. destruct (z <? 0).
  - change (Py.encodable ([45%N] ++ Py.digits (- z)) = true).
    rewrite encodable_app. apply andb_true_iff. split; [reflexivity |].
    apply (forallb_impl_encodable is_digit);
      [apply digit_encodable | apply digits_all_digits].
  - apply (forallb_impl_encodable is_digit);
      [apply digit_encodable | apply digits_all_digits].
Qed.

Lemma zfill_encodable (w : nat) (s : str) :
  Py.encodable s = true -> Py.encodable (Py.zfill w s) = true.
Proof.
  intros Hs. unfold Py.zfill. rewrite encodable_app, Hs, andb_true_r.
  induction (w - length s)%nat as [| n IH]; [reflexivity | exact IH].
Qed.

Lemma hex_digit_lower (z : Z) :
  0 <= z < 16 -> is_lower_hex (Py.hex_digit z) = true.
Proof.
  intros Hz. unfold Py.hex_digit, is_lower_hex, is_digit.
  destruct (z <? 10) eqn:E.
  - apply Z.ltb_lt in E. apply orb_true_iff. left.
    apply andb_true_iff. split; apply N.leb_le; lia.
  - apply Z.ltb_ge in E. apply orb_true_iff. right.
    apply andb_true_iff. split; apply N.leb_le; lia.
Qed.

Lemma Z_of_byte_range (b : byte) : 0 <= Py.Z_of_byte b < 256.
Proof.
  unfold Py.Z_of_byte. pose proof (Byte.to_N_bounded b) as H. lia.
Qed.

Lemma hex_lower (bs : bytes) : forallb is_lower_hex (Py.hex bs) = true.
Proof.
  induction bs as [| b bs IH]; [reflexivity |].
  unfold Py.hex in *. cbn [flat_map app forallb]. rewrite IH.
  pose proof (Z_of_byte_range b) as Hb.
  rewrite !hex_digit_lower; [reflexivity | |].
  - change 15 with (Z.ones 4). rewrite Z.land_ones by lia.
    apply Z.mod_pos_bound. lia.
  - rewrite Z.shiftr_div_pow2 by lia. change (2 ^ 4) with 16.
    split; [apply Z.div_pos; lia | apply Z.div_lt_upper_bound; lia].
Qed.

Lemma hex_encodable (bs : bytes) : Py.encodable (Py.hex bs) = true.
Proof.
  apply (forallb_impl_encodable is_lower_hex);
    [apply lower_hex_encodable | apply hex_lower].
Qed.

Lemma hex_length (bs : bytes) : length (Py.hex bs) = (2 * length bs)%nat.
Proof.
  induction bs as [| b bs IH]; [reflexivity |].
  unfold Py.hex in *. cbn [flat_map app length]. rewrite IH. lia.
Qed.

End PyFacts.

Section DigestFacts.

Lemma unhex_hex_byte (b : byte) :
  Py.byte_of_Z
    (16 * unhex_digit (Py.hex_digit (Z.shiftr (Py.Z_of_byte b) 4))
     + unhex_digit (Py.hex_digit (Z.land (Py.Z_of_byte b) 15)))
  = b.
Proof. destruct b; reflexivity. Qed.

Lemma hex_inj (a b : bytes) : Py.hex a = Py.hex b -> a = b.
Proof.
  revert b. induction a as [| x a IH]; intros [| y b] H;
    try reflexivity; try discriminate H.
  unfold Py.hex in H. cbn [flat_map app] in H.
  injection H as Hhi Hlo Hrest.
  f_equal; [| now apply IH].
  rewrite <- (unhex_hex_byte x), <- (unhex_hex_byte y), Hhi, Hlo.
  reflexivity.
Qed.

Lemma sha256_digest_length (m : bytes) : length (SHA256.digest m) = 32%nat.
Proof.
  unfold SHA256.digest, SHA256.state_bytes.
  rewrite length_map. reflexivity.
Qed.

Lemma hmac_digest_length (h : HMAC.t) : length (HMAC.digest h) = 32%nat.
Proof. unfold HMAC.digest. apply sha256_digest_length. Qed.

Lemma hmac_hexdigest_length (h : HMAC.t) :
  length (HMAC.hexdigest h) = 64%nat.
Proof.
  unfold HMAC.hexdigest. rewrite hex_length, hmac_digest_length.
  reflexivity.
Qed.

End DigestFacts.

Section DatetimeFacts.

(** Within the supported range the year stays between 1970 and 9999. *)
Lemma ord2ymd_year (n : Z) :
  719163 <= n <= 3652059 ->
  1970 <= (Datetime._ord2ymd n).1.1 <= 9999.
Proof.
  intros Hn. unfold Datetime._ord2ymd.
  unfold Datetime._DI400Y, Datetime._DI100Y, Datetime._DI4Y.
  set (r1 := (n - 1) mod 146097).
  set (q1 := (n - 1) / 146097).
  set (r2 := r1 mod 36524). set (q2 := r1 / 36524).
  set (r3 := r2 mod 1461). set (q3 := r2 / 1461).
  set (r4 := r3 mod 365). set (q4 := r3 / 365).
  assert (n - 1 = 146097 * q1 + r1 /\ 0 <= r1 < 146097) as [E1 B1]
    by (subst q1 r1; split;
        [apply Z.div_mod; lia | apply Z.mod_pos_bound; lia]).
  assert (r1 = 36524 * q2 + r2 /\ 0 <= r2 < 36524) as [E2 B2]
    by (subst q2 r2; split;
        [apply Z.div_mod; lia | apply Z.mod_pos_bound; lia]).
  assert (r2 = 1461 * q3 + r3 /\ 0 <= r3 < 1461) as [E3 B3]
    by (subst q3 r3; split;
        [apply Z.div_mod; lia | apply Z.mod_pos_bound; lia]).
  assert (r3 = 365 * q4 + r4 /\ 0 <= r4 < 365) as [E4 B4]
    by (subst q4 r4; split;
        [apply Z.div_mod; lia | apply Z.mod_pos_bound; lia]).
  clearbody r1 q1 r2 q2 r3 q3 r4 q4.
  destruct ((q4 =? 4) || (q2 =? 4)) eqn:Hend.
  - cbn [fst]. apply orb_true_iff in Hend.
    destruct Hend as [H | H]; apply Z.eqb_eq in H; lia.
  - apply orb_false_iff in Hend as [H4 H2].
    apply Z.eqb_neq in H4, H2.
    match goal with
    | |- context [if ?c then _ else _] => destruct c
    end; cbn [fst]; lia.
Qed.

Lemma utcfromtimestamp_supported (t : Z) :
  Datetime.supported t = true ->
  exists dt,
    Datetime.utcfromtimestamp t = Ok dt
    /\ Datetime.strftime_Ymd dt = Spec.date t.
Proof.
  unfold Datetime.supported, Datetime.MAX_TIMESTAMP. intros H.
  apply andb_true_iff in H as [H0 H1].
  apply Z.leb_le in H0, H1.
  unfold Datetime.utcfromtimestamp, Spec.date.
  assert (719163 <= Datetime.EPOCH_ORDINAL + t / 86400 <= 3652059) as Hord.
  { unfold Datetime.EPOCH_ORDINAL.
    assert (0 <= t / 86400) by (apply Z.div_pos; lia).
    assert (t / 86400 < 2932897) by (apply Z.div_lt_upper_bound; lia).
    lia. }
  pose proof (ord2ymd_year _ Hord) as Hy.
  destruct (Datetime._ord2ymd (Datetime.EPOCH_ORDINAL + t / 86400))
    as [[y m] d].
  cbn [fst] in Hy. unfold Datetime.MINYEAR, Datetime.MAXYEAR.
  replace ((1 <=? y) && (y <=? 9999)) with true.
  - eexists. split; reflexivity.
  - symmetry. apply andb_true_iff. split; apply Z.leb_le; lia.
Qed.

Lemma date_encodable (t : Z) : Py.encodable (Spec.date t) = true.
Proof.
  unfold Spec.date.
  destruct (Datetime._ord2ymd (Datetime.EPOCH_ORDINAL + t / 86400))
    as [[y m] d].
  rewrite !encodable_app, !zfill_encodable by apply str_of_int_encodable.
  reflexivity.
Qed.

End DatetimeFacts.

Section JsonFacts.

Lemma ascii_encodable_char (c : N) :
  is_ascii c = true -> Py.encodable_char c = true.
Proof.
  unfold is_ascii, Py.encodable_char. intros H. apply N.ltb_lt in H.
  apply andb_true_iff. split.
  - apply Z.ltb_lt. lia.
  - apply negb_true_iff, andb_false_iff. left. apply Z.leb_gt. lia.
Qed.

Lemma ascii_encodable (s : str) :
  forallb is_ascii s = true -> Py.encodable s = true.
Proof. apply forallb_impl_encodable, ascii_encodable_char. Qed.

Lemma land_15_range (z : Z) : 0 <= Z.land z 15 < 16.
Proof.
  change 15 with (Z.ones 4). rewrite Z.land_ones by lia.
  apply Z.mod_pos_bound. lia.
Qed.

Lemma hex_digit_ascii (z : Z) :
  0 <= z < 16 -> is_ascii (Py.hex_digit z) = true.
Proof.
  intros Hz. unfold Py.hex_digit, is_ascii.
  destruct (z <? 10); apply N.ltb_lt; lia.
Qed.

Lemma u_escape_ascii (z : Z) : forallb is_ascii (Json.u_escape z) = true.
Proof.
  unfold Json.u_escape, Json.hex4. cbn [forallb app Json.backslash Py.lit
    list_ascii_of_string map].
  rewrite !hex_digit_ascii by apply land_15_range. reflexivity.
Qed.

Lemma escape_char_ascii (c : N) :
  forallb is_ascii (Json.escape_char c) = true.
Proof.
  unfold Json.escape_char.
  repeat match goal with
         | |- context [if Z.of_N c =? ?k then _ else _] =>
             destruct (Z.of_N c =? k); [reflexivity |]
         end.
  destruct ((32 <=? Z.of_N c) && (Z.of_N c <=? 126)) eqn:E.
  - apply andb_true_iff in E as [_ E]. apply Z.leb_le in E.
    cbn [forallb]. unfold is_ascii.
    replace (c <? 128)%N with true; [reflexivity |].
    symmetry. apply N.ltb_lt. lia.
  - destruct (Z.of_N c <? 65536).
    + apply u_escape_ascii.
    + rewrite forallb_app, !u_escape_ascii. reflexivity.
Qed.

Lemma encode_basestring_ascii_ascii (s : str) :
  forallb is_ascii (Json.encode_basestring_ascii s) = true.
Proof.
  unfold Json.encode_basestring_ascii.
  rewrite !forallb_app. cbn [Json.quote forallb].
  replace (forallb is_ascii (flat_map Json.escape_char s)) with true;
    [reflexivity |].
  symmetry. induction s as [| c s IH]; [reflexivity |].
  cbn [flat_map]. rewrite forallb_app, escape_char_ascii, IH. reflexivity.
Qed.

Lemma join_ascii (sep : str) (items : list str) :
  forallb is_ascii sep = true ->
  Forall (fun x => forallb is_ascii x = true) items ->
  forallb is_ascii (Py.join sep items) = true.
Proof.
  intros Hsep H. induction H as [| x items Hx Hitems IH]; [reflexivity |].
  cbn [Py.join]. destruct items as [| y items]; [exact Hx |].
  rewrite !forallb_app, Hx, Hsep, IH. reflexivity.
Qed.

Lemma str_of_int_ascii (z : Z) : forallb is_ascii (Py.str_of_int z) = true.
Proof.
  assert (forall s, forallb is_digit s = true -> forallb is_ascii s = true)
    as Hd.
  { intros s Hs. apply forallb_forall. intros c Hc.
    assert (is_digit c = true) as Hdc
      by (revert c Hc; now apply forallb_forall).
    unfold is_digit in Hdc. apply andb_true_iff in Hdc as [_ Hdc].
    apply N.leb_le in Hdc. apply N.ltb_lt. lia. }
  unfold Py.str_of_int. destruct (z <? 0).
  - cbn [forallb]. rewrite Hd by apply digits_all_digits. reflexivity.
  - apply Hd, digits_all_digits.
Qed.

(** With [ensure_ascii] the serialised text is plain ASCII. *)
Lemma dumps_ascii : forall o, forallb is_ascii (Json.dumps o) = true.
Proof.
  fix IH 1. intros [| [|] | z | s | l | d]; cbn [Json.dumps].
  - reflexivity.
  - reflexivity.
  - reflexivity.
  - apply str_of_int_ascii.
  - apply encode_basestring_ascii_ascii.
  - rewrite !forallb_app. rewrite join_ascii; [reflexivity | reflexivity |].
    induction l as [| x l IHl]; constructor; [apply IH | exact IHl].
  - rewrite !forallb_app. rewrite join_ascii; [reflexivity | reflexivity |].
    induction d as [| [k v] d IHd]; constructor; [| exact IHd].
    cbn [fst snd]. rewrite !forallb_app, encode_basestring_ascii_ascii, IH.
    reflexivity.
Qed.

Lemma dumps_encodable (o : Json.pyobj) :
  Py.encodable (Json.dumps o) = true.
Proof. apply ascii_encodable, dumps_ascii. Qed.

End JsonFacts.

Section RequestsFacts.

Variable repr : Json.pyobj -> str.

Lemma bind_inv {A B : Type} (r : result A) (k : A -> result B) (b : B) :
  (r ≫= k) = Ok b -> exists a, r = Ok a /\ k a = Ok b.
Proof. destruct r as [a | e]; [now exists a | discriminate]. Qed.

Lemma mapM_Forall {A B : Type} (f : A -> result B) (P : B -> Prop) :
  (forall a b, f a = Ok b -> P b) ->
  forall l r, Requests.mapM f l = Ok r -> Forall P r.
Proof.
  intros Hf. induction l as [| a l IH]; intros r H; cbn [Requests.mapM] in H.
  - injection H as <-. constructor.
  - apply bind_inv in H as (b & Hb & H).
    apply bind_inv in H as (bs & Hbs & H).
    injection H as <-. constructor; [now apply (Hf a) | now apply IH].
Qed.

Lemma quote_byte_start (b : byte) :
  starts_without_brace (Requests.quote_byte b) = true.
Proof. destruct b; reflexivity. Qed.

Lemma item_start (k : bytes) (v : str) :
  starts_without_brace (Requests.quote_plus_bytes k ++ Py.lit "=" ++ v)
  = true.
Proof.
  destruct k as [| b k]; [reflexivity |].
  unfold Requests.quote_plus_bytes. cbn [flat_map].
  pose proof (quote_byte_start b) as Hb.
  destruct (Requests.quote_byte b) as [| c rest]; [discriminate Hb |].
  exact Hb.
Qed.

Lemma urlencode_pair_start (kv : bytes * Requests.field) (items : list str) :
  Requests.urlencode_pair repr kv = Ok items ->
  Forall (fun it => starts_without_brace it = true) items.
Proof.
  unfold Requests.urlencode_pair. destruct kv as [k [b | o]]; cbn [fst snd].
  - intros H. injection H as <-. constructor; [apply item_start | constructor].
  - assert (forall items',
               (v ← Requests.quote_plus (Requests.py_str repr o);
                Ok [Requests.quote_plus_bytes k ++ Py.lit "=" ++ v])
               = Ok items' ->
               Forall (fun it => starts_without_brace it = true) items')
      as Hone.
    { intros items' H. apply bind_inv in H as (v & _ & H).
      injection H as <-. constructor; [apply item_start | constructor]. }
    destruct o as [| bb | z | s | l | d];
      try (intros H; exact (Hone _ H)).
    + intros H. revert H. apply mapM_Forall.
      intros elt it H. apply bind_inv in H as (v & _ & H).
      injection H as <-. apply item_start.
    + intros H. revert H. apply mapM_Forall.
      intros elt it H. apply bind_inv in H as (v & _ & H).
      injection H as <-. apply item_start.
Qed.

Lemma join_start (sep : str) (items : list str) :
  Forall (fun it => starts_without_brace it = true) items ->
  items = [] \/ starts_without_brace (Py.join sep items) = true.
Proof.
  intros H. destruct H as [| x items Hx _]; [now left |]. right.
  cbn [Py.join]. destruct items as [| y items]; [exact Hx |].
  destruct x as [| c x]; [discriminate Hx | exact Hx].
Qed.

Lemma Forall_concat {A : Type} (P : A -> Prop) (ls : list (list A)) :
  Forall (Forall P) ls -> Forall P (concat ls).
Proof.
  induction 1 as [| l ls Hl _ IH]; [constructor |].
  cbn [concat]. apply Forall_app. split; assumption.
Qed.

(** A form-encoded body is empty or opens with something else than a
    brace. *)
Lemma encode_params_start (data : Json.dict) (s : str) :
  Requests._encode_params repr data = Ok s ->
  s = [] \/ starts_without_brace s = true.
Proof.
  unfold Requests._encode_params, Requests.urlencode. intros H.
  apply bind_inv in H as (query & _ & H).
  apply bind_inv in H as (items & Hitems & H).
  injection H as <-.
  assert (Forall (fun it => starts_without_brace it = true) (concat items))
    as Hall.
  { apply Forall_concat. revert Hitems. apply mapM_Forall.
    intros kv its. apply urlencode_pair_start. }
  destruct (join_start (Py.lit "&") _ Hall) as [-> | Hj];
    [left; reflexivity | right; exact Hj].
Qed.

Lemma byte_of_Z_brace (c : N) :
  Z.of_N c < 256 -> Py.byte_of_Z (Z.of_N c) = x7b -> c = 123%N.
Proof.
  intros Hc H. unfold Py.byte_of_Z in H.
  rewrite Z.mod_small, N2Z.id in H by lia.
  destruct (Byte.of_N c) as [b |] eqn:E.
  - subst b. apply Byte.to_of_N in E. exact (eq_sym E).
  - apply Byte.of_N_None_iff in E. lia.
Qed.

Lemma encode_latin1_start (s : str) (b : bytes) :
  s = [] \/ starts_without_brace s = true ->
  Py.encode_latin1 s = Ok b ->
  forall rest, b <> x7b :: rest.
Proof.
  unfold Py.encode_latin1. intros Hs H rest.
  destruct (forallb (fun c => Z.of_N c <? 256) s) eqn:Hall;
    [| discriminate H].
  injection H as <-.
  destruct Hs as [-> | Hs]; [discriminate |].
  destruct s as [| c s]; [discriminate Hs |].
  cbn [map]. intros E. injection E as E _.
  cbn [forallb] in Hall. apply andb_true_iff in Hall as [Hc _].
  apply Z.ltb_lt in Hc. apply byte_of_Z_brace in E; [| exact Hc].
  subst c. discriminate Hs.
Qed.

End RequestsFacts.

(** * The signer *)

Section SignerFacts.
Import ApiClient.

Lemma bind_Ok {A B : Type} (a : A) (k : A -> result B) :
  (Ok a ≫= k) = k a.
Proof. reflexivity. Qed.

Lemma well_formed_inv d secret_key timestamp payload :
  well_formed d secret_key timestamp payload = true ->
  Py.encodable payload = true
  /\ Py.encodable (content_type d) = true
  /\ Py.encodable (host d) = true
  /\ Py.encodable secret_key = true
  /\ Py.encodable (service d) = true
  /\ Datetime.supported timestamp = true.
Proof.
  unfold well_formed, signable. intros H.
  apply andb_true_iff in H as [Hp H].
  repeat (apply andb_true_iff in H as [H ?]). tauto.
Qed.

Ltac solve_encodable :=
  rewrite ?encodable_app;
  rewrite ?hex_encodable, ?str_of_int_encodable, ?date_encodable;
  repeat match goal with
         | H : Py.encodable _ = true |- _ => rewrite H
         end;
  reflexivity.

(** On well-formed inputs no [encode] and no date conversion raises, and
    every local variable has the value the specification names. *)
Lemma generate_authorization_locals_ok d secret_id secret_key region
    timestamp payload :
  well_formed d secret_key timestamp payload = true ->
  __generate_authorization_locals
    (subclass_init d secret_id secret_key region) timestamp payload
  = Ok (signing_values d secret_key timestamp payload).
Proof.
  intros Hwf.
  apply well_formed_inv in Hwf as (Hp & Hct & Hh & Hk & Hs & Ht).
  destruct (utcfromtimestamp_supported _ Ht) as (dt & Hdt & Hfmt).
  unfold __generate_authorization_locals, __sign, _canonical_headers.
  cbn [subclass_init __init__ _http_request_method _canonical_uri
       _canonical_query_string _signed_headers _algorithm _service _host
       _content_type _secret_key].
  rewrite (encode_ok payload Hp), bind_Ok. cbv beta.
  rewrite Hdt, bind_Ok. cbv beta. rewrite Hfmt.
  unfold SHA256.hexdigest, HMAC.hexdigest.
  do 6 (rewrite encode_ok by solve_encodable;
        repeat (rewrite bind_Ok; cbv beta)).
  change (Py.lit "/" ++ Py.lit "tc3_request") with (Py.lit "/tc3_request").
  unfold signing_values, canonical_request_of, Spec.signature,
    Spec.k_signing, Spec.k_service, Spec.k_date, Spec.HMAC_SHA256,
    Spec.string_to_sign, Spec.canonical_request, Spec.credential_scope,
    Spec.algorithm_id, Spec.nl, nl.
  cbn [Py.join]. reflexivity.
Qed.

Lemma generate_authorization_ok d secret_id secret_key region
    timestamp payload :
  well_formed d secret_key timestamp payload = true ->
  __generate_authorization
    (subclass_init d secret_id secret_key region) timestamp payload
  = Ok (authorization_of d secret_id secret_key timestamp payload).
Proof.
  intros Hwf. unfold __generate_authorization.
  rewrite (generate_authorization_locals_ok _ _ _ _ _ _ Hwf), bind_Ok.
  cbn [subclass_init __init__ _algorithm _secret_id _signed_headers
       signing_values credential_scope signature].
  unfold authorization_of, Spec.authorization, Spec.algorithm_id.
  change (Py.lit ", SignedHeaders=")
    with (Py.lit ", " ++ Py.lit "SignedHeaders=").
  rewrite <- !app_assoc. reflexivity.
Qed.

(** [__make_headers] reads the clock once and builds the dictionary
    around the [Authorization] value for that reading. *)
Lemma make_headers_unfold self payload w :
  __make_headers self payload w
  = (authorization ←
       __generate_authorization self (now w)
         (Json.dumps (Json.PyDict payload));
     Ok (Spec.header_map authorization (_content_type self) (_host self)
           (_action self) (Py.str_of_int (now w)) (_version self)
           (_region self) (Py.lit "zh-CN")),
     advance w).
Proof. reflexivity. Qed.

Lemma signable_well_formed d secret_key timestamp (o : Json.pyobj) :
  signable d secret_key timestamp = true ->
  well_formed d secret_key timestamp (Json.dumps o) = true.
Proof.
  intros H. unfold well_formed. rewrite dumps_encodable, H. reflexivity.
Qed.

Lemma make_headers_ok d secret_id secret_key region payload w :
  signable d secret_key (now w) = true ->
  __make_headers (subclass_init d secret_id secret_key region) payload w
  = (Ok (headers_of d region
           (authorization_of d secret_id secret_key (now w)
              (Json.dumps (Json.PyDict payload)))
           (now w)),
     advance w).
Proof.
  intros Hs. rewrite make_headers_unfold.
  rewrite (generate_authorization_ok d secret_id secret_key region);
    [| now apply signable_well_formed].
  rewrite bind_Ok. reflexivity.
Qed.

Lemma header_map_dom (a c h x t v r l : str) :
  dom (Spec.header_map a c h x t v r l) = list_to_set Spec.header_keys.
Proof.
  unfold Spec.header_map. rewrite dom_list_to_map_L. reflexivity.
Qed.

Ltac lit_neq :=
  let H := fresh in intros H; cbv in H; discriminate H.

Ltac header_lookup :=
  unfold Spec.header_map; cbn [list_to_map foldr uncurry fst snd];
  repeat (rewrite lookup_insert_ne by lit_neq);
  apply lookup_insert_eq.

Lemma header_map_lookup (a c h x t v r l : str) :
  let m := Spec.header_map a c h x t v r l in
  m !! Py.lit "Authorization" = Some a
  /\ m !! Py.lit "Content-Type" = Some c
  /\ m !! Py.lit "Host" = Some h
  /\ m !! Py.lit "X-TC-Action" = Some x
  /\ m !! Py.lit "X-TC-Timestamp" = Some t
  /\ m !! Py.lit "X-TC-Version" = Some v
  /\ m !! Py.lit "X-TC-Region" = Some r
  /\ m !! Py.lit "X-TC-Language" = Some l.
Proof. cbv zeta. repeat split; header_lookup. Qed.

Lemma header_keys_NoDup : NoDup Spec.header_keys.
Proof.
  unfold Spec.header_keys. cbn [map].
  repeat (apply NoDup_cons; split;
          [intros H;
           repeat (apply elem_of_cons in H as [H | H];
                   [cbv in H; discriminate H |]);
           now apply elem_of_nil in H |]).
  apply NoDup_nil_2.
Qed.

Lemma headers_of_lookup d region authorization timestamp :
  let m := headers_of d region authorization timestamp in
  m !! Py.lit "Authorization" = Some authorization
  /\ m !! Py.lit "Host" = Some (host d)
  /\ m !! Py.lit "X-TC-Action" = Some (action d)
  /\ m !! Py.lit "X-TC-Timestamp" = Some (Py.str_of_int timestamp).
Proof.
  cbv zeta. unfold headers_of.
  destruct (header_map_lookup authorization (content_type d) (host d)
              (action d) (Py.str_of_int timestamp) (version d) region
              (Py.lit "zh-CN"))
    as (H1 & _ & H3 & H4 & H5 & _).
  repeat split; assumption.
Qed.

(** The whole UTC day 2023-12-31, and the whole UTC day 2024-01-01. *)
Lemma date_2023_12_31 (t : Z) :
  1703980800 <= t <= 1704067199 -> Spec.date t = Py.lit "2023-12-31".
Proof.
  intros Ht. unfold Spec.date.
  replace (t / 86400) with 19722
    by (apply Z.div_unique with (t - 19722 * 86400); lia).
  vm_compute. reflexivity.
Qed.

Lemma date_2024_01_01 (t : Z) :
  1704067200 <= t <= 1704153599 -> Spec.date t = Py.lit "2024-01-01".
Proof.
  intros Ht. unfold Spec.date.
  replace (t / 86400) with 19723
    by (apply Z.div_unique with (t - 19723 * 86400); lia).
  vm_compute. reflexivity.
Qed.

End SignerFacts.

(** * The claims *)

Section Claims.
Import ApiClient.

(** C1. On every well-formed input the signature that
    [__generate_authorization] emits at the end of the [Authorization]
    value is the lowercase hex HMAC-SHA256 of the string to sign (the
    algorithm id, the decimal timestamp, the credential scope
    [YYYY-MM-DD/<service>/tc3_request] and the lowercase hex SHA-256 of
    the canonical request, joined by newlines), keyed by the chain
    [k_date = HMAC("TC3" + secret_key, date)],
    [k_service = HMAC(k_date, service)],
    [k_signing = HMAC(k_service, "tc3_request")], each link keyed by the
    raw 32-byte digest of the previous one. *)
Theorem signature_is_hmac_chain d secret_id secret_key region
    timestamp payload :
  well_formed d secret_key timestamp payload = true ->
  exists l prefix,
    __generate_authorization_locals
      (subclass_init d secret_id secret_key region) timestamp payload
    = Ok l
    /\ __generate_authorization
         (subclass_init d secret_id secret_key region) timestamp payload
       = Ok (prefix ++ Py.lit "Signature=" ++ signature l)
    /\ signature l
       = Spec.signature secret_key timestamp (service d)
           (canonical_request l)
    /\ signature l
       = Py.hex (Spec.HMAC_SHA256 (secret_signing l) (signature_content l))
    /\ signature_content l
       = Py.join nl
           [Py.lit "TC3-HMAC-SHA256"; Py.str_of_int timestamp;
            now_date l ++ Py.lit "/" ++ service d ++ Py.lit "/tc3_request";
            Py.hex (SHA256.digest (Py.utf8 (canonical_request l)))]
    /\ now_date l = Spec.date timestamp
    /\ secret_date l
       = Spec.HMAC_SHA256 (Py.utf8 (Py.lit "TC3" ++ secret_key))
           (now_date l)
    /\ secret_service l = Spec.HMAC_SHA256 (secret_date l) (service d)
    /\ secret_signing l
       = Spec.HMAC_SHA256 (secret_service l) (Py.lit "tc3_request")
    /\ length (secret_date l) = 32%nat
    /\ length (secret_service l) = 32%nat
    /\ length (secret_signing l) = 32%nat
    /\ length (signature l) = 64%nat
    /\ forallb is_lower_hex (signature l) = true.
Proof.
  intros Hwf.
  exists (signing_values d secret_key timestamp payload).
  exists (Py.lit "TC3-HMAC-SHA256 Credential=" ++ secret_id ++ Py.lit "/"
          ++ Spec.credential_scope (Spec.date timestamp) (service d)
          ++ Py.lit ", SignedHeaders=content-type;host, ").
  split; [now apply generate_authorization_locals_ok |].
  split.
  { rewrite (generate_authorization_ok _ _ _ _ _ _ Hwf).
    unfold authorization_of, Spec.authorization, Spec.algorithm_id.
    cbn [signing_values signature].
    change (Py.lit "TC3-HMAC-SHA256 Credential=")
      with (Py.lit "TC3-HMAC-SHA256" ++ Py.lit " Credential=").
    change (Py.lit ", SignedHeaders=content-type;host, ")
      with (Py.lit ", SignedHeaders=" ++ Py.lit "content-type;host"
            ++ Py.lit ", ").
    change (Py.lit ", Signature=")
      with (Py.lit ", " ++ Py.lit "Signature=").
    rewrite <- !app_assoc. reflexivity. }
  cbn [signing_values signature canonical_request signature_content
       secret_signing secret_service secret_date now_date].
  repeat split;
    try apply hmac_digest_length;
    try apply hex_lower.
Qed.

(** C1, on the sample data. *)
Lemma signature_is_hmac_chain_witness :
  well_formed Sample.cvm Sample.secret_key 1700000000
    (Json.dumps (Json.PyDict Sample.payload)) = true
  /\ exists l prefix,
    __generate_authorization_locals (Sample.client Sample.cvm) 1700000000
      (Json.dumps (Json.PyDict Sample.payload)) = Ok l
    /\ __generate_authorization (Sample.client Sample.cvm) 1700000000
         (Json.dumps (Json.PyDict Sample.payload))
       = Ok (prefix ++ Py.lit "Signature=" ++ signature l).
Proof.
  split; [reflexivity |].
  destruct (signature_is_hmac_chain Sample.cvm Sample.secret_id
              Sample.secret_key Sample.region 1700000000
              (Json.dumps (Json.PyDict Sample.payload)) eq_refl)
    as (l & prefix & H1 & H2 & _).
  exists l, prefix. split; assumption.
Defined.

(** C2. For every payload and host (on well-formed inputs) the canonical
    request is the six components HTTP method, canonical URI, canonical
    query string, canonical headers block, signed headers and lowercase
    hex SHA-256 of the payload bytes, joined in that order by newlines;
    the method is [POST], the URI is [/] and the query string is empty. *)
Theorem canonical_request_six_components d secret_id secret_key region
    timestamp payload :
  well_formed d secret_key timestamp payload = true ->
  let self := subclass_init d secret_id secret_key region in
  exists l,
    __generate_authorization_locals self timestamp payload = Ok l
    /\ canonical_request l
       = Spec.canonical_request (_http_request_method self)
           (_canonical_uri self) (_canonical_query_string self)
           (_canonical_headers self) (_signed_headers self)
           (Py.utf8 payload)
    /\ _http_request_method self = Py.lit "POST"
    /\ _canonical_uri self = Py.lit "/"
    /\ _canonical_query_string self = []
    /\ canonical_request l
       = Py.lit "POST" ++ nl ++ Py.lit "/" ++ nl ++ nl
         ++ (Py.lit "content-type:" ++ content_type d ++ nl
             ++ Py.lit "host:" ++ host d ++ nl)
         ++ nl ++ Py.lit "content-type;host" ++ nl
         ++ SHA256.hexdigest (Py.utf8 payload)
    /\ length (SHA256.hexdigest (Py.utf8 payload)) = 64%nat
    /\ forallb is_lower_hex (SHA256.hexdigest (Py.utf8 payload)) = true.
Proof.
  intros Hwf self.
  exists (signing_values d secret_key timestamp payload).
  split; [now apply generate_authorization_locals_ok |].
  repeat split. apply hex_lower.
Qed.

(** C2, on the sample data. *)
Lemma canonical_request_six_components_witness :
  well_formed Sample.cvm Sample.secret_key 1700000000
    (Json.dumps (Json.PyDict Sample.payload)) = true
  /\ exists l,
    __generate_authorization_locals (Sample.client Sample.cvm) 1700000000
      (Json.dumps (Json.PyDict Sample.payload)) = Ok l
    /\ canonical_request l
       = Spec.canonical_request (Py.lit "POST") (Py.lit "/") []
           (Py.lit "content-type:application/json" ++ nl
            ++ Py.lit "host:cvm.tencentcloudapi.com" ++ nl)
           (Py.lit "content-type;host")
           (Py.utf8 (Json.dumps (Json.PyDict Sample.payload))).
Proof.
  split; [reflexivity |].
  destruct (canonical_request_six_components Sample.cvm Sample.secret_id
              Sample.secret_key Sample.region 1700000000
              (Json.dumps (Json.PyDict Sample.payload)) eq_refl)
    as (l & H1 & H2 & _).
  exists l. split; [exact H1 | exact H2].
Defined.

(** C3, as stated, fails in its reason: the timestamp is no input of the
    signer and the wall clock is read inside it. [__make_headers] takes the
    payload only and advances the clock by one reading; the same
    credentials, descriptor and payload, signed twice in a row on a clock
    that shows 1700000000 and then 1700000001, give two different header
    dictionaries. Identical headers need identical clock readings, which
    no argument of the call can fix. *)
Lemma same_inputs_signed_twice_differ :
  let self := Sample.client Sample.cvm in
  let w := Sample.ticking 1700000000 in
  let first := __make_headers self Sample.payload w in
  let second := __make_headers self Sample.payload first.2 in
  now w = 1700000000
  /\ first.2 <> w
  /\ reads first.2 = S (reads w)
  /\ now first.2 = 1700000001
  /\ first.1 <> second.1.
Proof.
  cbv zeta. unfold Sample.client.
  rewrite (make_headers_ok Sample.cvm Sample.secret_id Sample.secret_key
             Sample.region Sample.payload (Sample.ticking 1700000000) eq_refl).
  cbn [fst snd].
  rewrite (make_headers_ok Sample.cvm Sample.secret_id Sample.secret_key
             Sample.region Sample.payload
             (advance (Sample.ticking 1700000000)) eq_refl).
  cbn [fst]. split; [reflexivity |].
  split.
  { intros E. apply (f_equal reads) in E. cbv in E. discriminate E. }
  split; [reflexivity |]. split; [reflexivity |].
  intros H.
  apply (f_equal (fun r : result (gmap str str) =>
                    match r with
                    | Ok m => m !! Py.lit "X-TC-Timestamp"
                    | Raise _ => None
                    end)) in H.
  destruct (headers_of_lookup Sample.cvm Sample.region
              (authorization_of Sample.cvm Sample.secret_id Sample.secret_key
                 (now (Sample.ticking 1700000000))
                 (Json.dumps (Json.PyDict Sample.payload)))
              (now (Sample.ticking 1700000000))) as (_ & _ & _ & H1).
  destruct (headers_of_lookup Sample.cvm Sample.region
              (authorization_of Sample.cvm Sample.secret_id Sample.secret_key
                 (now (advance (Sample.ticking 1700000000)))
                 (Json.dumps (Json.PyDict Sample.payload)))
              (now (advance (Sample.ticking 1700000000)))) as (_ & _ & _ & H2).
  rewrite H1, H2 in H. cbv in H. discriminate H.
Qed.

(** C3, amended. [__make_headers] reads the wall clock once, inside, and
    its result depends on the clock only through that one reading. For the
    same instance and payload: two calls whose readings are the same second
    return identical results (header for header, or the same exception);
    and, for an instance of a subclass and readings the signer accepts, two
    calls whose readings are different seconds return different header
    dictionaries, so the headers are identical exactly when the readings
    are. *)
Theorem headers_are_a_function_of_the_clock_reading
    (self : BaseApiRequestFactory) (payload : Json.dict) (w w' : world) :
  (now w = now w' ->
   (__make_headers self payload w).1 = (__make_headers self payload w').1)
  /\ reads (__make_headers self payload w).2 = S (reads w)
  /\ (__make_headers self payload w).1
     = (authorization ←
          __generate_authorization self (now w)
            (Json.dumps (Json.PyDict payload));
        Ok (Spec.header_map authorization (_content_type self) (_host self)
              (_action self) (Py.str_of_int (now w)) (_version self)
              (_region self) (Py.lit "zh-CN")))
  /\ (forall d secret_id secret_key region,
        self = subclass_init d secret_id secret_key region ->
        signable d secret_key (now w) = true ->
        signable d secret_key (now w') = true ->
        ((__make_headers self payload w).1
         = (__make_headers self payload w').1
         <-> now w = now w')
        /\ (now w <> now w' ->
            forall hs hs',
              (__make_headers self payload w).1 = Ok hs ->
              (__make_headers self payload w').1 = Ok hs' ->
              hs !! Py.lit "X-TC-Timestamp"
              <> hs' !! Py.lit "X-TC-Timestamp")).
Proof.
  split.
  { intros Hnow. rewrite !make_headers_unfold. cbn [fst]. rewrite Hnow.
    reflexivity. }
  split; [reflexivity |]. split; [reflexivity |].
  intros d secret_id secret_key region -> Hs Hs'.
  assert (0 <= now w) as Ht.
  { unfold signable, Datetime.supported in Hs.
    apply andb_true_iff in Hs as [_ Hs].
    apply andb_true_iff in Hs as [Hs _].
    now apply Z.leb_le in Hs. }
  assert (0 <= now w') as Ht'.
  { unfold signable, Datetime.supported in Hs'.
    apply andb_true_iff in Hs' as [_ Hs'].
    apply andb_true_iff in Hs' as [Hs' _].
    now apply Z.leb_le in Hs'. }
  assert (Py.str_of_int (now w) = Py.str_of_int (now w') -> now w = now w')
    as Hinj.
  { intros E.
    rewrite <- (proj1 (str_of_int_value (now w) Ht)),
            <- (proj1 (str_of_int_value (now w') Ht')), E.
    reflexivity. }
  rewrite (make_headers_ok _ _ _ _ _ _ Hs), (make_headers_ok _ _ _ _ _ _ Hs').
  cbn [fst].
  match goal with
  | |- context [Ok (headers_of ?d1 ?r1 ?a1 ?t1) = Ok (headers_of ?d2 ?r2 ?a2 ?t2)] =>
      destruct (headers_of_lookup d1 r1 a1 t1) as (_ & _ & _ & H1);
      destruct (headers_of_lookup d2 r2 a2 t2) as (_ & _ & _ & H2)
  end.
  split.
  - split.
    + intros H.
      apply (f_equal (fun r : result (gmap str str) =>
                        match r with
                        | Ok m => m !! Py.lit "X-TC-Timestamp"
                        | Raise _ => None
                        end)) in H.
      rewrite H1, H2 in H. apply Hinj. congruence.
    + intros Hnow. rewrite Hnow. reflexivity.
  - intros Hne hs hs' E E' H.
    apply (f_equal (fun r : result (gmap str str) =>
                      match r with
                      | Ok m => m !! Py.lit "X-TC-Timestamp"
                      | Raise _ => None
                      end)) in E, E'.
    rewrite H1 in E. rewrite H2 in E'.
    apply Hne, Hinj. congruence.
Qed.

(** C3 amended, on the sample credentials: two different clocks that show
    the same second give the same headers, and a clock that shows the next
    second gives other headers. *)
Lemma headers_are_a_function_of_the_clock_reading_witness :
  let w := Sample.ticking 1700000000 in
  let w' := {| clock := fun _ => 1700000000; reads := 5 |} in
  (now w = now w'
   /\ (__make_headers (Sample.client Sample.cvm) Sample.payload w).1
      = (__make_headers (Sample.client Sample.cvm) Sample.payload w').1)
  /\ (signable Sample.cvm Sample.secret_key (now w) = true
      /\ signable Sample.cvm Sample.secret_key (now (advance w)) = true
      /\ now w <> now (advance w)
      /\ (__make_headers (Sample.client Sample.cvm) Sample.payload w).1
         <> (__make_headers (Sample.client Sample.cvm) Sample.payload
               (advance w)).1).
Proof.
  cbv zeta. split.
  - split; [reflexivity |].
    apply (proj1 (headers_are_a_function_of_the_clock_reading
                    (Sample.client Sample.cvm) Sample.payload
                    (Sample.ticking 1700000000)
                    {| clock := fun _ => 1700000000; reads := 5 |})
             eq_refl).
  - split; [reflexivity |]. split; [reflexivity |].
    split; [cbv; discriminate |].
    intros E.
    apply (proj1 (proj1 (proj2 (proj2 (proj2
             (headers_are_a_function_of_the_clock_reading
                (Sample.client Sample.cvm) Sample.payload
                (Sample.ticking 1700000000)
                (advance (Sample.ticking 1700000000)))))
             Sample.cvm Sample.secret_id Sample.secret_key Sample.region
             eq_refl eq_refl eq_refl))) in E.
    cbv in E. discriminate E.
Defined.

(** X6. The JSON branch of [send_request]: the body that goes on the wire is
    the UTF-8 text of [json.dumps(payload)], the very bytes whose SHA-256
    closes the canonical request. *)
Lemma json_body_is_the_signed_payload repr d secret_id secret_key region
    payload w :
  content_type d = Py.lit "application/json" ->
  signable d secret_key (now w) = true ->
  let self := subclass_init d secret_id secret_key region in
  exists req l,
    (send_request repr self payload w).1 = Ok req
    /\ body req = Some (Py.utf8 (Json.dumps (Json.PyDict payload)))
    /\ __generate_authorization_locals self (now w)
         (Json.dumps (Json.PyDict payload)) = Ok l
    /\ canonical_request l
       = Spec.canonical_request (Py.lit "POST") (Py.lit "/") []
           (_canonical_headers self) (Py.lit "content-type;host")
           (Py.utf8 (Json.dumps (Json.PyDict payload))).
Proof.
  intros Hct Hs self. subst self. unfold send_request.
  rewrite (make_headers_ok _ _ _ _ _ _ Hs).
  cbn [subclass_init _content_type]. rewrite Hct.
  destruct (decide (Py.lit "application/json" = Py.lit "application/json"))
    as [_ | Hne]; [| now destruct Hne].
  unfold requests_post, Requests.prepare_body.
  rewrite encode_ok by apply dumps_encodable.
  rewrite !bind_Ok. cbn [fst].
  pose proof (signable_well_formed _ _ _ (Json.PyDict payload) Hs) as Hwf.
  rewrite (generate_authorization_locals_ok _ secret_id _ region _ _ Hwf).
  eexists. eexists. split; [reflexivity |].
  repeat split.
Qed.

(** X7. The other branch of [send_request]: whatever the payload, a body
    handed over as [data=] is never the JSON text that was signed. *)
Lemma form_body_is_never_the_signed_payload repr self payload w req :
  _content_type self <> Py.lit "application/json" ->
  (send_request repr self payload w).1 = Ok req ->
  body req <> Some (Py.utf8 (Json.dumps (Json.PyDict payload))).
Proof.
  intros Hct. unfold send_request.
  destruct (__make_headers self payload w) as [[hs | e] w'];
    [| discriminate].
  destruct (decide (_content_type self = Py.lit "application/json"))
    as [E | _]; [now destruct Hct |].
  cbn [fst]. unfold requests_post. intros H.
  apply bind_inv in H as (b & Hb & H). injection H as <-. cbn [body].
  destruct payload as [| kv payload]; cbn [Requests.prepare_body] in Hb.
  - injection Hb as <-. discriminate.
  - apply bind_inv in Hb as (s & Hs & Hb).
    apply bind_inv in Hb as (bs & Hbs & Hb). injection Hb as <-.
    intros E. injection E as E.
    cbn [Json.dumps] in E. rewrite utf8_app in E.
    change (Py.utf8 (Py.lit "{")) with [x7b] in E. cbn [app] in E.
    revert E. apply (encode_latin1_start s bs); [| exact Hbs].
    now apply (encode_params_start repr (kv :: payload)).
Qed.

(** C4 fails on the form branch. With the content type
    [multipart/form-data] and the payload [{"Limit": 10}] the request body
    on the wire is [Limit=10], while the canonical request, and with it the
    [Authorization] header of that very request, is computed over the
    JSON text [{"Limit": 10}]. *)
Theorem form_body_is_not_the_signed_payload (repr : Json.pyobj -> str) :
  let self := Sample.client Sample.cvm_form in
  let payload := [(Py.lit "Limit", Json.PyInt 10)] in
  let signed := Py.lit "{" ++ Json.quote ++ Py.lit "Limit" ++ Json.quote
                ++ Py.lit ": 10}" in
  exists req l authorization,
    (send_request repr self payload (Sample.ticking 1700000000)).1 = Ok req
    /\ body req = Some (Sample.ascii_bytes "Limit=10")
    /\ Json.dumps (Json.PyDict payload) = signed
    /\ __generate_authorization_locals self 1700000000 signed = Ok l
    /\ canonical_request l
       = Spec.canonical_request (Py.lit "POST") (Py.lit "/") []
           (Py.lit "content-type:multipart/form-data" ++ nl
            ++ Py.lit "host:cvm.tencentcloudapi.com" ++ nl)
           (Py.lit "content-type;host") (Py.utf8 signed)
    /\ __generate_authorization self 1700000000 signed = Ok authorization
    /\ headers req !! Py.lit "Authorization" = Some authorization
    /\ body req <> Some (Py.utf8 signed).
Proof.
  cbv zeta. unfold Sample.client, send_request.
  rewrite (make_headers_ok Sample.cvm_form Sample.secret_id Sample.secret_key
             Sample.region _ (Sample.ticking 1700000000) eq_refl).
  destruct (decide _) as [E | _]; [cbv in E; discriminate E |].
  unfold requests_post.
  change (Requests.prepare_body repr
            (Requests.DataArg [(Py.lit "Limit", Json.PyInt 10)]))
    with (Ok (A := option bytes) (Some (Sample.ascii_bytes "Limit=10"))).
  rewrite bind_Ok. cbn [fst body headers].
  change (now (Sample.ticking 1700000000)) with 1700000000.
  change (Json.dumps (Json.PyDict [(Py.lit "Limit", Json.PyInt 10)]))
    with (Py.lit "{" ++ Json.quote ++ Py.lit "Limit" ++ Json.quote
          ++ Py.lit ": 10}").
  rewrite (generate_authorization_locals_ok Sample.cvm_form Sample.secret_id
             Sample.secret_key Sample.region 1700000000
             (Py.lit "{" ++ Json.quote ++ Py.lit "Limit" ++ Json.quote
              ++ Py.lit ": 10}") eq_refl).
  rewrite (generate_authorization_ok Sample.cvm_form Sample.secret_id
             Sample.secret_key Sample.region 1700000000
             (Py.lit "{" ++ Json.quote ++ Py.lit "Limit" ++ Json.quote
              ++ Py.lit ": 10}") eq_refl).
  eexists. eexists. eexists. split; [reflexivity |].
  split; [reflexivity |]. split; [reflexivity |].
  split; [reflexivity |]. split; [reflexivity |].
  split; [reflexivity |].
  split.
  - cbn [headers].
    match goal with
    | |- headers_of ?d ?r ?a ?t !! _ = _ =>
        destruct (headers_of_lookup d r a t) as (Ha & _)
    end.
    exact Ha.
  - cbn [body]. intros E. vm_compute in E. discriminate E.
Qed.

(** C5, as stated, fails: nothing validates the descriptor. The base
    class leaves host, service and action empty, and signing with them
    returns a header dictionary instead of raising. *)
Lemma empty_descriptor_is_signed :
  let self := __init__ Sample.secret_id Sample.secret_key Sample.region in
  _host self = [] /\ _service self = [] /\ _action self = []
  /\ exists hs,
       (__make_headers self Sample.payload (Sample.ticking 1700000000)).1
       = Ok hs
       /\ hs !! Py.lit "Host" = Some []
       /\ hs !! Py.lit "X-TC-Action" = Some [].
Proof.
  cbv zeta. repeat (split; [reflexivity |]).
  change (__init__ Sample.secret_id Sample.secret_key Sample.region)
    with (subclass_init
            {| service := []; host := []; action := []; version := [];
               content_type := Py.lit "application/json" |}
            Sample.secret_id Sample.secret_key Sample.region).
  rewrite make_headers_ok by reflexivity. cbn [fst].
  eexists. split; [reflexivity |].
  match goal with
  | |- headers_of ?d ?r ?a ?t !! _ = _ /\ _ =>
      destruct (headers_of_lookup d r a t) as (_ & Hh & Ha & _)
  end.
  split; assumption.
Qed.

(** C5, amended. A descriptor with an empty host, service or action is
    not rejected: as long as the attributes that are encoded have no lone
    surrogate and the clock shows a supported second, [__make_headers]
    returns the header dictionary, with the empty values passed through. *)
Theorem empty_descriptor_fields_are_not_rejected d secret_id secret_key
    region payload w :
  host d = [] \/ service d = [] \/ action d = [] ->
  signable d secret_key (now w) = true ->
  exists hs l,
    (__make_headers (subclass_init d secret_id secret_key region) payload w).1
    = Ok hs
    /\ hs !! Py.lit "Host" = Some (host d)
    /\ hs !! Py.lit "X-TC-Action" = Some (action d)
    /\ __generate_authorization_locals
         (subclass_init d secret_id secret_key region) (now w)
         (Json.dumps (Json.PyDict payload)) = Ok l
    /\ credential_scope l
       = Spec.date (now w) ++ Py.lit "/" ++ service d
         ++ Py.lit "/tc3_request".
Proof.
  intros _ Hs.
  rewrite (make_headers_ok _ _ _ _ _ _ Hs). cbn [fst].
  pose proof (signable_well_formed _ _ _ (Json.PyDict payload) Hs) as Hwf.
  rewrite (generate_authorization_locals_ok _ secret_id _ region _ _ Hwf).
  eexists. eexists. split; [reflexivity |].
  match goal with
  | |- headers_of ?d ?r ?a ?t !! _ = _ /\ _ =>
      destruct (headers_of_lookup d r a t) as (_ & Hh & Ha & _)
  end.
  repeat split; assumption.
Qed.

(** C5 amended, on the base class defaults. *)
Lemma empty_descriptor_fields_are_not_rejected_witness :
  let d := {| service := []; host := []; action := []; version := [];
              content_type := Py.lit "application/json" |} in
  (host d = [] \/ service d = [] \/ action d = [])
  /\ signable d Sample.secret_key (now (Sample.ticking 1700000000)) = true
  /\ exists hs,
       (__make_headers
          (subclass_init d Sample.secret_id Sample.secret_key Sample.region)
          Sample.payload (Sample.ticking 1700000000)).1 = Ok hs.
Proof.
  cbv zeta. split; [left; reflexivity |]. split; [reflexivity |].
  destruct (empty_descriptor_fields_are_not_rejected
              {| service := []; host := []; action := []; version := [];
                 content_type := Py.lit "application/json" |}
              Sample.secret_id Sample.secret_key Sample.region Sample.payload
              (Sample.ticking 1700000000) (or_introl eq_refl) eq_refl)
    as (hs & l & H & _).
  exists hs. exact H.
Defined.

(** C6. The date of the credential scope is the UTC calendar date of the
    timestamp: every second of the UTC day 2023-12-31 gives [2023-12-31]
    and every second of the next UTC day gives [2024-01-01]. For the
    timestamps 1704067199 and 1704067200, one second apart, and an
    unchanged payload, the signer computes different dates, different
    credential scopes, different strings to sign and different
    [Authorization] values. Its two signatures are the hexadecimal
    HMAC-SHA256 values of these two different strings to sign under the
    keys derived from the two dates; they are equal exactly when these two
    digests are. On the sample credentials, with the sample payload and
    with the empty payload, the signer's two signatures are computed:
    they differ. *)
Theorem utc_date_rolls_over_at_midnight d secret_id secret_key region
    payload :
  well_formed d secret_key 1704067199 payload = true ->
  let self := subclass_init d secret_id secret_key region in
  (forall t, 1703980800 <= t <= 1704067199 ->
             Spec.date t = Py.lit "2023-12-31")
  /\ (forall t, 1704067200 <= t <= 1704153599 ->
                Spec.date t = Py.lit "2024-01-01")
  /\ (exists l1 l2 a1 a2,
      __generate_authorization_locals self 1704067199 payload = Ok l1
      /\ __generate_authorization_locals self 1704067200 payload = Ok l2
      /\ now_date l1 = Py.lit "2023-12-31"
      /\ now_date l2 = Py.lit "2024-01-01"
      /\ credential_scope l1
         = Py.lit "2023-12-31" ++ Py.lit "/" ++ service d
           ++ Py.lit "/tc3_request"
      /\ credential_scope l2
         = Py.lit "2024-01-01" ++ Py.lit "/" ++ service d
           ++ Py.lit "/tc3_request"
      /\ credential_scope l1 <> credential_scope l2
      /\ canonical_request l1 = canonical_request l2
      /\ signature_content l1 <> signature_content l2
      /\ Py.utf8 (signature_content l1) <> Py.utf8 (signature_content l2)
      /\ secret_signing l1
         = Spec.k_signing secret_key (Py.lit "2023-12-31") (service d)
      /\ secret_signing l2
         = Spec.k_signing secret_key (Py.lit "2024-01-01") (service d)
      /\ signature l1
         = Py.hex (HMAC.digest
                     (HMAC.new (secret_signing l1)
                        (Py.utf8 (signature_content l1))))
      /\ signature l2
         = Py.hex (HMAC.digest
                     (HMAC.new (secret_signing l2)
                        (Py.utf8 (signature_content l2))))
      /\ (signature l1 = signature l2
          <-> HMAC.digest
                (HMAC.new (secret_signing l1)
                   (Py.utf8 (signature_content l1)))
              = HMAC.digest
                  (HMAC.new (secret_signing l2)
                     (Py.utf8 (signature_content l2))))
      /\ __generate_authorization self 1704067199 payload = Ok a1
      /\ __generate_authorization self 1704067200 payload = Ok a2
      /\ a1 <> a2)
  /\ (forall secret_id' region' p s1 s2,
        p = Sample.payload \/ p = [] ->
        __generate_authorization_locals
          (subclass_init Sample.cvm secret_id' Sample.secret_key region')
          1704067199 (Json.dumps (Json.PyDict p)) = Ok s1 ->
        __generate_authorization_locals
          (subclass_init Sample.cvm secret_id' Sample.secret_key region')
          1704067200 (Json.dumps (Json.PyDict p)) = Ok s2 ->
        signature s1 <> signature s2
        /\ (p = Sample.payload ->
            signature s1
            = Py.lit
                "b005687ce0bd1ae170a179120453716852e8e981ddb0c4dab401c64f85ae2df2"
            /\ signature s2
               = Py.lit
                   "55502b9540b5a3121ee98bf60be7498621f414a3f9c185a0e4c45bca4a34afd9")).
Proof.
  intros Hwf self. subst self.
  split; [exact date_2023_12_31 |]. split; [exact date_2024_01_01 |].
  assert (well_formed d secret_key 1704067200 payload = true) as Hwf'.
  { destruct (well_formed_inv _ _ _ _ Hwf) as (Hp & Hct & Hh & Hk & Hs & _).
    unfold well_formed, signable. rewrite Hp, Hct, Hh, Hk, Hs. reflexivity. }
  split.
  { exists (signing_values d secret_key 1704067199 payload),
           (signing_values d secret_key 1704067200 payload),
           (authorization_of d secret_id secret_key 1704067199 payload),
           (authorization_of d secret_id secret_key 1704067200 payload).
    split; [now apply generate_authorization_locals_ok |].
    split; [now apply generate_authorization_locals_ok |].
    cbn [signing_values now_date credential_scope canonical_request
         signature_content signature secret_signing].
    unfold authorization_of, Spec.signature.
    rewrite (date_2023_12_31 1704067199), (date_2024_01_01 1704067200)
      by lia.
    split; [reflexivity |]. split; [reflexivity |].
    split; [reflexivity |]. split; [reflexivity |].
    split.
    { intros E. apply (f_equal (take 4)) in E. lazy in E. discriminate E. }
    split; [reflexivity |].
    split.
    { intros E. apply (f_equal (take 26)) in E. lazy in E. discriminate E. }
    split.
    { intros E. apply (f_equal (take 26)) in E. lazy in E. discriminate E. }
    split; [reflexivity |]. split; [reflexivity |].
    unfold Spec.HMAC_SHA256.
    split; [reflexivity |]. split; [reflexivity |].
    split.
    { split; [apply hex_inj | intros E; rewrite E; reflexivity]. }
    split; [now apply generate_authorization_ok |].
    split; [now apply generate_authorization_ok |].
    unfold Spec.authorization. intros E.
    do 3 apply app_inv_head in E.
    apply (f_equal (take 5)) in E. lazy in E. discriminate E. }
  intros secret_id' region' p s1 s2 Hp H1 H2.
  assert (forall t s,
             __generate_authorization_locals
               (subclass_init Sample.cvm secret_id' Sample.secret_key region')
               t (Json.dumps (Json.PyDict p)) = Ok s ->
             Datetime.supported t = true ->
             signature s
             = Spec.signature Sample.secret_key t (service Sample.cvm)
                 (canonical_request_of Sample.cvm
                    (Json.dumps (Json.PyDict p)))) as Hsig.
  { intros t s H Ht.
    rewrite (generate_authorization_locals_ok Sample.cvm secret_id'
               Sample.secret_key region' t (Json.dumps (Json.PyDict p)))
      in H.
    - assert (Ok s = Ok (signing_values Sample.cvm Sample.secret_key t
                           (Json.dumps (Json.PyDict p)))) as E
        by (symmetry; exact H).
      apply (f_equal (fun r : result locals =>
                        match r with
                        | Ok l => signature l
                        | Raise _ => []
                        end)) in E.
      exact E.
    - apply signable_well_formed. unfold signable. rewrite Ht. reflexivity. }
  rewrite (Hsig _ _ H1 eq_refl), (Hsig _ _ H2 eq_refl).
  destruct Hp as [-> | ->].
  - split.
    + intros E. vm_compute in E. discriminate E.
    + intros _. split; vm_compute; reflexivity.
  - split.
    + intros E. vm_compute in E. discriminate E.
    + intros E. discriminate E.
Qed.

(** C6, on the sample data. *)
Lemma utc_date_rolls_over_at_midnight_witness :
  well_formed Sample.cvm Sample.secret_key 1704067199
    (Json.dumps (Json.PyDict Sample.payload)) = true
  /\ exists l1 l2,
    __generate_authorization_locals (Sample.client Sample.cvm) 1704067199
      (Json.dumps (Json.PyDict Sample.payload)) = Ok l1
    /\ __generate_authorization_locals (Sample.client Sample.cvm) 1704067200
         (Json.dumps (Json.PyDict Sample.payload)) = Ok l2
    /\ credential_scope l1 <> credential_scope l2
    /\ signature l1 <> signature l2.
Proof.
  split; [reflexivity |].
  destruct (utc_date_rolls_over_at_midnight Sample.cvm Sample.secret_id
              Sample.secret_key Sample.region
              (Json.dumps (Json.PyDict Sample.payload)) eq_refl)
    as (_ & _ & (l1 & l2 & a1 & a2 & H1 & H2 & _ & _ & _ & _ & H3 & _)
        & Hsample).
  exists l1, l2.
  destruct (Hsample Sample.secret_id Sample.region Sample.payload l1 l2
              (or_introl eq_refl) H1 H2) as [H4 _].
  repeat split; assumption.
Defined.

(** C7. For every credentials, service descriptor, timestamp and signature
    (on well-formed inputs) the returned [Authorization] value is
    [<algorithm_id> Credential=<secret_id>/<credential_scope>,
    SignedHeaders=<signed_headers>, Signature=<signature>] with the five
    components substituted. *)
Theorem authorization_value_format d secret_id secret_key region
    timestamp payload :
  well_formed d secret_key timestamp payload = true ->
  let self := subclass_init d secret_id secret_key region in
  exists l,
    __generate_authorization_locals self timestamp payload = Ok l
    /\ __generate_authorization self timestamp payload
       = Ok (Spec.authorization (_algorithm self) (_secret_id self)
               (credential_scope l) (_signed_headers self) (signature l))
    /\ __generate_authorization self timestamp payload
       = Ok (Py.lit "TC3-HMAC-SHA256" ++ Py.lit " Credential=" ++ secret_id
             ++ Py.lit "/" ++ credential_scope l
             ++ Py.lit ", SignedHeaders=" ++ Py.lit "content-type;host"
             ++ Py.lit ", Signature=" ++ signature l).
Proof.
  intros Hwf self.
  exists (signing_values d secret_key timestamp payload).
  split; [now apply generate_authorization_locals_ok |].
  split; now apply generate_authorization_ok.
Qed.

(** C7, on the sample data. *)
Lemma authorization_value_format_witness :
  well_formed Sample.cvm Sample.secret_key 1700000000
    (Json.dumps (Json.PyDict Sample.payload)) = true
  /\ exists l,
    __generate_authorization (Sample.client Sample.cvm) 1700000000
      (Json.dumps (Json.PyDict Sample.payload))
    = Ok (Spec.authorization (Py.lit "TC3-HMAC-SHA256") Sample.secret_id
            (credential_scope l) (Py.lit "content-type;host") (signature l)).
Proof.
  split; [reflexivity |].
  destruct (authorization_value_format Sample.cvm Sample.secret_id
              Sample.secret_key Sample.region 1700000000
              (Json.dumps (Json.PyDict Sample.payload)) eq_refl)
    as (l & _ & H & _).
  exists l. exact H.
Defined.

(** C8. On every call [__make_headers] reads the clock exactly once, and
    that one value is the timestamp of the string to sign and of the
    credential-scope date, and, rendered as a decimal integer numeral, the
    [X-TC-Timestamp] header value. The [Authorization] header that is sent
    is built from these very quantities: its credential scope opens with
    the date of that value and its [Signature=] field is the HMAC-SHA256 of
    the string to sign whose second line is that value's numeral. *)
Theorem timestamp_is_captured_once d secret_id secret_key region payload w :
  signable d secret_key (now w) = true ->
  let self := subclass_init d secret_id secret_key region in
  exists hs l auth,
    __make_headers self payload w = (Ok hs, advance w)
    /\ reads (__make_headers self payload w).2 = S (reads w)
    /\ hs !! Py.lit "X-TC-Timestamp" = Some (Py.str_of_int (now w))
    /\ decimal_value (Py.str_of_int (now w)) = now w
    /\ forallb is_digit (Py.str_of_int (now w)) = true
    /\ __generate_authorization_locals self (now w)
         (Json.dumps (Json.PyDict payload)) = Ok l
    /\ signature_content l
       = Py.join nl
           [Py.lit "TC3-HMAC-SHA256"; Py.str_of_int (now w);
            credential_scope l; hashed_canonical_request l]
    /\ now_date l = Spec.date (now w)
    /\ signature l
       = Py.hex (Spec.HMAC_SHA256 (secret_signing l) (signature_content l))
    /\ __generate_authorization self (now w)
         (Json.dumps (Json.PyDict payload)) = Ok auth
    /\ hs !! Py.lit "Authorization" = Some auth
    /\ auth
       = Py.lit "TC3-HMAC-SHA256" ++ Py.lit " Credential=" ++ secret_id
         ++ Py.lit "/" ++ credential_scope l
         ++ Py.lit ", SignedHeaders=" ++ Py.lit "content-type;host"
         ++ Py.lit ", Signature=" ++ signature l
    /\ credential_scope l
       = Spec.date (now w) ++ Py.lit "/" ++ service d
         ++ Py.lit "/tc3_request"
    /\ hashed_canonical_request l
       = Py.hex (SHA256.digest (Py.utf8 (canonical_request l)))
    /\ secret_signing l
       = Spec.k_signing secret_key (Spec.date (now w)) (service d)
    /\ hs !! Py.lit "Authorization"
       = Some (Py.lit "TC3-HMAC-SHA256" ++ Py.lit " Credential=" ++ secret_id
               ++ Py.lit "/" ++ Spec.date (now w) ++ Py.lit "/" ++ service d
               ++ Py.lit "/tc3_request"
               ++ Py.lit ", SignedHeaders=" ++ Py.lit "content-type;host"
               ++ Py.lit ", Signature="
               ++ Py.hex
                    (Spec.HMAC_SHA256 (secret_signing l)
                       (Py.join nl
                          [Py.lit "TC3-HMAC-SHA256"; Py.str_of_int (now w);
                           Spec.date (now w) ++ Py.lit "/" ++ service d
                           ++ Py.lit "/tc3_request";
                           Py.hex
                             (SHA256.digest
                                (Py.utf8 (canonical_request l)))]))).
Proof.
  intros Hs self. subst self.
  rewrite (make_headers_ok _ _ _ _ _ _ Hs). cbn [fst snd].
  pose proof (signable_well_formed _ _ _ (Json.PyDict payload) Hs) as Hwf.
  rewrite (generate_authorization_locals_ok _ secret_id _ region _ _ Hwf).
  rewrite (generate_authorization_ok _ secret_id _ region _ _ Hwf).
  eexists. eexists. eexists. split; [reflexivity |].
  unfold headers_of.
  destruct (header_map_lookup
              (authorization_of d secret_id secret_key (now w)
                 (Json.dumps (Json.PyDict payload)))
              (content_type d) (host d) (action d)
              (Py.str_of_int (now w)) (version d) region (Py.lit "zh-CN"))
    as (Hauth & _ & _ & _ & Hts & _).
  assert (0 <= now w) as Hnow.
  { unfold signable, Datetime.supported in Hs.
    apply andb_true_iff in Hs as [_ Hs].
    apply andb_true_iff in Hs as [Hs _].
    now apply Z.leb_le in Hs. }
  destruct (str_of_int_value (now w) Hnow) as [Hval Hdig].
  split; [reflexivity |].
  split; [exact Hts |].
  split; [exact Hval |].
  split; [exact Hdig |].
  split; [reflexivity |].
  split; [reflexivity |].
  split; [reflexivity |].
  split; [reflexivity |].
  split; [reflexivity |].
  split; [exact Hauth |].
  assert (authorization_of d secret_id secret_key (now w)
            (Json.dumps (Json.PyDict payload))
          = Py.lit "TC3-HMAC-SHA256" ++ Py.lit " Credential=" ++ secret_id
            ++ Py.lit "/" ++ Spec.date (now w) ++ Py.lit "/" ++ service d
            ++ Py.lit "/tc3_request"
            ++ Py.lit ", SignedHeaders=" ++ Py.lit "content-type;host"
            ++ Py.lit ", Signature="
            ++ Spec.signature secret_key (now w) (service d)
                 (canonical_request_of d
                    (Json.dumps (Json.PyDict payload)))) as Hfmt.
  { unfold authorization_of, Spec.authorization, Spec.credential_scope,
      Spec.algorithm_id.
    rewrite <- !app_assoc. reflexivity. }
  cbn [signing_values credential_scope signature hashed_canonical_request
       canonical_request secret_signing].
  split.
  { unfold authorization_of, Spec.authorization, Spec.algorithm_id.
    reflexivity. }
  split; [unfold Spec.credential_scope; reflexivity |].
  split; [reflexivity |].
  split; [reflexivity |].
  rewrite Hauth, Hfmt.
  unfold Spec.signature, Spec.string_to_sign, Spec.credential_scope,
    Spec.algorithm_id.
  cbv zeta. reflexivity.
Qed.

(** C8, on the sample data. *)
Lemma timestamp_is_captured_once_witness :
  signable Sample.cvm Sample.secret_key
    (now (Sample.ticking 1700000000)) = true
  /\ exists hs,
    (__make_headers (Sample.client Sample.cvm) Sample.payload
       (Sample.ticking 1700000000)).1 = Ok hs
    /\ hs !! Py.lit "X-TC-Timestamp" = Some (Py.lit "1700000000").
Proof.
  split; [reflexivity |].
  destruct (timestamp_is_captured_once Sample.cvm Sample.secret_id
              Sample.secret_key Sample.region Sample.payload
              (Sample.ticking 1700000000) eq_refl)
    as (hs & l & auth & H1 & _ & H2 & _).
  exists hs. split; [exact (f_equal fst H1) | exact H2].
Defined.

(** C9. The header dictionary [__make_headers] produces has exactly the
    eight keys [Authorization], [Content-Type], [Host], [X-TC-Action],
    [X-TC-Timestamp], [X-TC-Version], [X-TC-Region], [X-TC-Language]:
    none is missing and there is no other key. *)
Theorem header_map_has_exactly_eight_keys d secret_id secret_key region
    payload w :
  signable d secret_key (now w) = true ->
  exists hs,
    (__make_headers (subclass_init d secret_id secret_key region) payload w).1
    = Ok hs
    /\ dom hs = list_to_set Spec.header_keys
    /\ (forall k, is_Some (hs !! k) <-> k ∈ Spec.header_keys)
    /\ NoDup Spec.header_keys
    /\ size hs = 8%nat.
Proof.
  intros Hs. rewrite (make_headers_ok _ _ _ _ _ _ Hs). cbn [fst].
  eexists. split; [reflexivity |].
  unfold headers_of.
  assert (forall m : gmap str str,
             dom m = list_to_set Spec.header_keys ->
             (forall k, is_Some (m !! k) <-> k ∈ Spec.header_keys)
             /\ size m = 8%nat) as Hdom.
  { intros m Hm. split.
    - intros k. rewrite <- elem_of_dom, Hm, elem_of_list_to_set.
      reflexivity.
    - rewrite <- size_dom, Hm, size_list_to_set by apply header_keys_NoDup.
      reflexivity. }
  pose proof (header_map_dom
                (authorization_of d secret_id secret_key (now w)
                   (Json.dumps (Json.PyDict payload)))
                (content_type d) (host d) (action d)
                (Py.str_of_int (now w)) (version d) region (Py.lit "zh-CN"))
    as Hm.
  destruct (Hdom _ Hm) as [Hk Hsize].
  repeat split; try assumption; try apply Hk; apply header_keys_NoDup.
Qed.

(** C9, on the sample data. *)
Lemma header_map_has_exactly_eight_keys_witness :
  signable Sample.cvm Sample.secret_key
    (now (Sample.ticking 1700000000)) = true
  /\ exists hs,
    (__make_headers (Sample.client Sample.cvm) Sample.payload
       (Sample.ticking 1700000000)).1 = Ok hs
    /\ dom hs = list_to_set Spec.header_keys.
Proof.
  split; [reflexivity |].
  destruct (header_map_has_exactly_eight_keys Sample.cvm Sample.secret_id
              Sample.secret_key Sample.region Sample.payload
              (Sample.ticking 1700000000) eq_refl)
    as (hs & H1 & H2 & _).
  exists hs. split; [exact H1 | exact H2].
Defined.



End Claims.

(** * Further properties of the request factory *)

Section SignerInversion.
Import ApiClient.

Lemma encode_inv (s : str) (b : bytes) :
  Py.encode s = Ok b -> Py.encodable s = true /\ b = Py.utf8 s.
Proof.
  unfold Py.encode. destruct (Py.encodable s); [| discriminate].
  intros H. injection H as <-. split; reflexivity.
Qed.

Lemma utcfromtimestamp_date (t : Z) (dt : Datetime.datetime) :
  Datetime.utcfromtimestamp t = Ok dt ->
  Datetime.strftime_Ymd dt = Spec.date t.
Proof.
  unfold Datetime.utcfromtimestamp, Spec.date.
  destruct (Datetime._ord2ymd (Datetime.EPOCH_ORDINAL + t / 86400))
    as [[y m] d].
  destruct ((Datetime.MINYEAR <=? y) && (y <=? Datetime.MAXYEAR));
    [| discriminate].
  intros H. injection H as <-. reflexivity.
Qed.

(** From the first day of year 10000 on the year is out of range. *)
Lemma ord2ymd_year_large (n : Z) :
  3652060 <= n -> 10000 <= (Datetime._ord2ymd n).1.1.
Proof.
  intros Hn. unfold Datetime._ord2ymd.
  unfold Datetime._DI400Y, Datetime._DI100Y, Datetime._DI4Y.
  set (r1 := (n - 1) mod 146097).
  set (q1 := (n - 1) / 146097).
  set (r2 := r1 mod 36524). set (q2 := r1 / 36524).
  set (r3 := r2 mod 1461). set (q3 := r2 / 1461).
  set (r4 := r3 mod 365). set (q4 := r3 / 365).
  assert (n - 1 = 146097 * q1 + r1 /\ 0 <= r1 < 146097) as [E1 B1]
    by (subst q1 r1; split;
        [apply Z.div_mod; lia | apply Z.mod_pos_bound; lia]).
  assert (r1 = 36524 * q2 + r2 /\ 0 <= r2 < 36524) as [E2 B2]
    by (subst q2 r2; split;
        [apply Z.div_mod; lia | apply Z.mod_pos_bound; lia]).
  assert (r2 = 1461 * q3 + r3 /\ 0 <= r3 < 1461) as [E3 B3]
    by (subst q3 r3; split;
        [apply Z.div_mod; lia | apply Z.mod_pos_bound; lia]).
  assert (r3 = 365 * q4 + r4 /\ 0 <= r4 < 365) as [E4 B4]
    by (subst q4 r4; split;
        [apply Z.div_mod; lia | apply Z.mod_pos_bound; lia]).
  clearbody r1 q1 r2 q2 r3 q3 r4 q4.
  destruct ((q4 =? 4) || (q2 =? 4)) eqn:Hend.
  - cbn [fst]. apply orb_true_iff in Hend.
    destruct Hend as [H | H]; apply Z.eqb_eq in H; lia.
  - apply orb_false_iff in Hend as [H4 H2].
    apply Z.eqb_neq in H4, H2.
    match goal with
    | |- context [if ?c then _ else _] => destruct c
    end; cbn [fst]; lia.
Qed.

Lemma utcfromtimestamp_range (t : Z) :
  0 <= t ->
  (exists dt, Datetime.utcfromtimestamp t = Ok dt)
  <-> t <= Datetime.MAX_TIMESTAMP.
Proof.
  intros H0. split.
  - intros [dt H]. unfold Datetime.MAX_TIMESTAMP.
    destruct (Z_le_gt_dec t 253402300799) as [Hle | Hgt]; [exact Hle |].
    exfalso. unfold Datetime.utcfromtimestamp in H.
    assert (3652060 <= Datetime.EPOCH_ORDINAL + t / 86400) as Hord.
    { unfold Datetime.EPOCH_ORDINAL.
      assert (2932897 <= t / 86400) by (apply Z.div_le_lower_bound; lia).
      lia. }
    pose proof (ord2ymd_year_large _ Hord) as Hy.
    destruct (Datetime._ord2ymd (Datetime.EPOCH_ORDINAL + t / 86400))
      as [[y m] d].
    cbn [fst] in Hy. unfold Datetime.MINYEAR, Datetime.MAXYEAR in H.
    replace (y <=? 9999) with false in H by (symmetry; apply Z.leb_gt; lia).
    rewrite andb_false_r in H. discriminate H.
  - intros Hle.
    destruct (utcfromtimestamp_supported t) as (dt & Hdt & _).
    + unfold Datetime.supported. apply andb_true_iff.
      split; apply Z.leb_le; assumption.
    + now exists dt.
Qed.

Ltac bind_step H x Hx :=
  apply bind_inv in H as (x & Hx & H); cbv beta zeta in H.

(** What a successful run of the method's body implies, for any
    instance. *)
Lemma generate_authorization_locals_inv self timestamp payload l :
  __generate_authorization_locals self timestamp payload = Ok l ->
  Py.encodable payload = true
  /\ (exists dt, Datetime.utcfromtimestamp timestamp = Ok dt)
  /\ canonical_request l
     = _http_request_method self ++ nl ++ _canonical_uri self ++ nl
       ++ _canonical_query_string self ++ nl ++ _canonical_headers self
       ++ nl ++ _signed_headers self ++ nl
       ++ SHA256.hexdigest (Py.utf8 payload)
  /\ Py.encodable (canonical_request l) = true
  /\ Py.encodable (Py.lit "TC3" ++ _secret_key self) = true
  /\ Py.encodable (_service self) = true
  /\ now_date l = Spec.date timestamp
  /\ secret_signing l
     = Spec.k_signing (_secret_key self) (Spec.date timestamp)
         (_service self).
Proof.
  unfold __generate_authorization_locals, __sign. intros H.
  bind_step H pb Hpb. apply encode_inv in Hpb as [Hp ->].
  bind_step H dt Hdt. rewrite (utcfromtimestamp_date _ _ Hdt) in H.
  bind_step H cb Hcb. apply encode_inv in Hcb as [Hc ->].
  bind_step H kb Hkb. apply encode_inv in Hkb as [Hk ->].
  bind_step H h1 Hh1. bind_step Hh1 m1 Hm1. injection Hh1 as <-.
  apply encode_inv in Hm1 as [_ ->].
  bind_step H h2 Hh2. bind_step Hh2 m2 Hm2. injection Hh2 as <-.
  apply encode_inv in Hm2 as [Hs ->].
  bind_step H h3 Hh3. bind_step Hh3 m3 Hm3. injection Hh3 as <-.
  apply encode_inv in Hm3 as [_ ->].
  bind_step H h4 Hh4. bind_step Hh4 m4 Hm4. injection Hh4 as <-.
  injection H as <-. cbn [canonical_request now_date secret_signing].
  repeat split; try assumption.
  now exists dt.
Qed.

End SignerInversion.

Section SignerProperties.
Import ApiClient.

Lemma signable_inv d secret_key timestamp :
  signable d secret_key timestamp = true ->
  Py.encodable (content_type d) = true
  /\ Py.encodable (host d) = true
  /\ Py.encodable secret_key = true
  /\ Py.encodable (service d) = true
  /\ 0 <= timestamp <= Datetime.MAX_TIMESTAMP.
Proof.
  unfold signable, Datetime.supported. intros H.
  apply andb_true_iff in H as [H Ht].
  apply andb_true_iff in Ht as [H0 H1]. apply Z.leb_le in H0, H1.
  repeat (apply andb_true_iff in H as [H ?]). tauto.
Qed.

(** X1. [__generate_authorization] returns exactly on the well-formed
    inputs: for a timestamp from the epoch on and a payload text, it
    returns an [Authorization] value if and only if payload, content type,
    host, secret key and service carry no lone surrogate and the timestamp
    is not past year 9999; the secret id, action, version and region never
    make it fail. *)
Theorem generate_authorization_returns_iff_well_formed d secret_id
    secret_key region timestamp payload :
  0 <= timestamp ->
  (exists authorization,
      __generate_authorization (subclass_init d secret_id secret_key region)
        timestamp payload = Ok authorization)
  <-> well_formed d secret_key timestamp payload = true.
Proof.
  intros Hnow. split.
  - intros [auth Hauth].
    unfold __generate_authorization in Hauth.
    apply bind_inv in Hauth as (l & Hl & _).
    apply generate_authorization_locals_inv in Hl
      as (Hp & Hdt & Hcr & Hc & Hk & Hs & _).
    rewrite Hcr in Hc. unfold _canonical_headers in Hc.
    repeat rewrite encodable_app in Hc. rewrite encodable_app in Hk.
    do 6 (apply andb_true_iff in Hc as [_ Hc]).
    apply andb_true_iff in Hc as [Hc _].
    apply andb_true_iff in Hc as [_ Hc].
    apply andb_true_iff in Hc as [Hct Hc].
    do 2 (apply andb_true_iff in Hc as [_ Hc]).
    apply andb_true_iff in Hc as [Hh _].
    apply andb_true_iff in Hk as [_ Hk].
    apply utcfromtimestamp_range in Hdt; [| exact Hnow].
    unfold well_formed, signable, Datetime.supported.
    rewrite (proj2 (Z.leb_le 0 timestamp) Hnow).
    rewrite (proj2 (Z.leb_le timestamp Datetime.MAX_TIMESTAMP) Hdt).
    change (Py.encodable (content_type d) = true) in Hct.
    change (Py.encodable (host d) = true) in Hh.
    change (Py.encodable secret_key = true) in Hk.
    change (Py.encodable (service d) = true) in Hs.
    rewrite Hp, Hct, Hh, Hk, Hs. reflexivity.
  - intros Hwf.
    rewrite (generate_authorization_ok d secret_id secret_key region
               timestamp payload Hwf).
    eexists. reflexivity.
Qed.

(** X1, on the sample data, and on a payload text with a lone surrogate,
    which the signer refuses. *)
Lemma generate_authorization_returns_iff_well_formed_witness :
  0 <= 1700000000
  /\ ((exists authorization,
          __generate_authorization (Sample.client Sample.cvm) 1700000000
            (Json.dumps (Json.PyDict Sample.payload)) = Ok authorization)
      <-> well_formed Sample.cvm Sample.secret_key 1700000000
            (Json.dumps (Json.PyDict Sample.payload)) = true)
  /\ ~ (exists authorization,
          __generate_authorization (Sample.client Sample.cvm) 1700000000
            [0xD800%N] = Ok authorization).
Proof.
  split; [cbv; discriminate |]. split.
  - apply (generate_authorization_returns_iff_well_formed Sample.cvm
             Sample.secret_id Sample.secret_key Sample.region 1700000000
             (Json.dumps (Json.PyDict Sample.payload))).
    cbv. discriminate.
  - intros H.
    apply (generate_authorization_returns_iff_well_formed Sample.cvm
             Sample.secret_id Sample.secret_key Sample.region 1700000000
             [0xD800%N]) in H; [| cbv; discriminate].
    vm_compute in H. discriminate H.
Defined.

Lemma Some_inj {A : Type} (a b : A) : Some a = Some b -> a = b.
Proof. congruence. Qed.

(** X2. Two calls whose clock readings are different seconds never
    produce the same header dictionary, whatever the two payloads: the
    [X-TC-Timestamp] values differ. *)
Theorem different_seconds_give_different_headers d secret_id secret_key
    region payload payload' w w' :
  signable d secret_key (now w) = true ->
  signable d secret_key (now w') = true ->
  now w <> now w' ->
  (__make_headers (subclass_init d secret_id secret_key region) payload w).1
  <> (__make_headers (subclass_init d secret_id secret_key region)
        payload' w').1.
Proof.
  intros Hs Hs' Hne.
  rewrite (make_headers_ok _ _ _ _ _ _ Hs), (make_headers_ok _ _ _ _ _ _ Hs').
  cbn [fst]. intros H.
  apply (f_equal (fun r : result (gmap str str) =>
                    match r with
                    | Ok m => m !! Py.lit "X-TC-Timestamp"
                    | Raise _ => None
                    end)) in H.
  match type of H with
  | headers_of ?d1 ?r1 ?a1 ?t1 !! _ = headers_of ?d2 ?r2 ?a2 ?t2 !! _ =>
      destruct (headers_of_lookup d1 r1 a1 t1) as (_ & _ & _ & H1);
      destruct (headers_of_lookup d2 r2 a2 t2) as (_ & _ & _ & H2)
  end.
  rewrite H1, H2 in H. apply Some_inj in H.
  apply signable_inv in Hs as (_ & _ & _ & _ & Ht & _).
  apply signable_inv in Hs' as (_ & _ & _ & _ & Ht' & _).
  apply Hne.
  rewrite <- (proj1 (str_of_int_value (now w) Ht)),
          <- (proj1 (str_of_int_value (now w') Ht')), H.
  reflexivity.
Qed.

(** X2, on a ticking clock. *)
Lemma different_seconds_give_different_headers_witness :
  let w := Sample.ticking 1700000000 in
  signable Sample.cvm Sample.secret_key (now w) = true
  /\ signable Sample.cvm Sample.secret_key (now (advance w)) = true
  /\ now w <> now (advance w)
  /\ (__make_headers (Sample.client Sample.cvm) Sample.payload w).1
     <> (__make_headers (Sample.client Sample.cvm) Sample.payload
           (advance w)).1.
Proof.
  cbv zeta. split; [reflexivity |]. split; [reflexivity |].
  split; [cbv; discriminate |].
  apply (different_seconds_give_different_headers Sample.cvm Sample.secret_id
           Sample.secret_key Sample.region Sample.payload Sample.payload
           (Sample.ticking 1700000000)
           (advance (Sample.ticking 1700000000)) eq_refl eq_refl).
  cbv. discriminate.
Defined.

(** X3. In every request [send_request] issues, the host of the URL, the
    [Host] header and the [host:] line of the canonical request are the
    same attribute, and the [Content-Type] header is the value of the
    signed [content-type:] line. *)
Theorem sent_host_and_content_type_are_the_signed_ones repr self payload w
    req :
  (send_request repr self payload w).1 = Ok req ->
  url req = Py.lit "https://" ++ _host self
  /\ headers req !! Py.lit "Host" = Some (_host self)
  /\ headers req !! Py.lit "Content-Type" = Some (_content_type self)
  /\ exists l,
       __generate_authorization_locals self (now w)
         (Json.dumps (Json.PyDict payload)) = Ok l
       /\ canonical_request l
          = _http_request_method self ++ nl ++ _canonical_uri self ++ nl
            ++ _canonical_query_string self ++ nl
            ++ (Py.lit "content-type:" ++ _content_type self ++ nl
                ++ Py.lit "host:" ++ _host self ++ nl)
            ++ nl ++ _signed_headers self ++ nl
            ++ SHA256.hexdigest (Py.utf8 (Json.dumps (Json.PyDict payload))).
Proof.
  unfold send_request. rewrite make_headers_unfold.
  destruct (__generate_authorization self (now w)
              (Json.dumps (Json.PyDict payload))) as [auth | e] eqn:Hauth;
    [| discriminate].
  rewrite bind_Ok.
  assert (forall arg,
             requests_post repr (_endpoint self)
               (Spec.header_map auth (_content_type self) (_host self)
                  (_action self) (Py.str_of_int (now w)) (_version self)
                  (_region self) (Py.lit "zh-CN")) arg = Ok req ->
             url req = Py.lit "https://" ++ _host self
             /\ headers req !! Py.lit "Host" = Some (_host self)
             /\ headers req !! Py.lit "Content-Type"
                = Some (_content_type self)) as Hpost.
  { intros arg H. unfold requests_post in H.
    apply bind_inv in H as (b & _ & H). injection H as <-.
    cbn [url headers].
    destruct (header_map_lookup auth (_content_type self) (_host self)
                (_action self) (Py.str_of_int (now w)) (_version self)
                (_region self) (Py.lit "zh-CN"))
      as (_ & Hc & Hh & _).
    repeat split; assumption. }
  intros H.
  assert (url req = Py.lit "https://" ++ _host self
          /\ headers req !! Py.lit "Host" = Some (_host self)
          /\ headers req !! Py.lit "Content-Type"
             = Some (_content_type self)) as (Hu & Hh & Hc).
  { destruct (decide (_content_type self = Py.lit "application/json"));
      cbn [fst] in H; exact (Hpost _ H). }
  repeat (split; [assumption |]).
  unfold __generate_authorization in Hauth.
  apply bind_inv in Hauth as (l & Hl & _).
  exists l. split; [exact Hl |].
  apply generate_authorization_locals_inv in Hl as (_ & _ & Hcr & _).
  exact Hcr.
Qed.

Lemma json_request_of_the_sample :
  (send_request Sample.no_repr (Sample.client Sample.cvm) Sample.payload
     (Sample.ticking 1700000000)).1
  = Ok {| url := Py.lit "https://cvm.tencentcloudapi.com";
          headers :=
            headers_of Sample.cvm Sample.region
              (authorization_of Sample.cvm Sample.secret_id
                 Sample.secret_key 1700000000
                 (Json.dumps (Json.PyDict Sample.payload)))
              1700000000;
          body := Some (Py.utf8 (Json.dumps (Json.PyDict Sample.payload))) |}.
Proof.
  unfold Sample.client, send_request.
  rewrite (make_headers_ok Sample.cvm Sample.secret_id Sample.secret_key
             Sample.region Sample.payload (Sample.ticking 1700000000)
             eq_refl).
  destruct (decide _) as [_ | N]; [| exfalso; apply N; reflexivity].
  unfold requests_post, Requests.prepare_body.
  rewrite encode_ok by apply dumps_encodable.
  rewrite !bind_Ok. reflexivity.
Qed.

(** X3, on the sample data. *)
Lemma sent_host_and_content_type_are_the_signed_ones_witness :
  exists req,
    (send_request Sample.no_repr (Sample.client Sample.cvm) Sample.payload
       (Sample.ticking 1700000000)).1 = Ok req
    /\ url req = Py.lit "https://cvm.tencentcloudapi.com"
    /\ headers req !! Py.lit "Host" = Some (Py.lit "cvm.tencentcloudapi.com").
Proof.
  eexists. split; [exact json_request_of_the_sample |].
  destruct (sent_host_and_content_type_are_the_signed_ones Sample.no_repr
              (Sample.client Sample.cvm) Sample.payload
              (Sample.ticking 1700000000) _ json_request_of_the_sample)
    as (Hu & Hh & _).
  split; [exact Hu | exact Hh].
Defined.

(** X4. The secret key reaches the headers only through the signature:
    with another secret key every header but [Authorization] is unchanged,
    and the two [Authorization] values share everything up to
    [Signature=], followed by 64 characters each. *)
Theorem secret_key_only_enters_the_signature d secret_id secret_key
    secret_key' region payload w :
  signable d secret_key (now w) = true ->
  signable d secret_key' (now w) = true ->
  exists hs hs' prefix sig sig',
    (__make_headers (subclass_init d secret_id secret_key region) payload w).1
    = Ok hs
    /\ (__make_headers (subclass_init d secret_id secret_key' region)
          payload w).1 = Ok hs'
    /\ (forall k, k <> Py.lit "Authorization" -> hs !! k = hs' !! k)
    /\ hs !! Py.lit "Authorization" = Some (prefix ++ sig)
    /\ hs' !! Py.lit "Authorization" = Some (prefix ++ sig')
    /\ length sig = 64%nat
    /\ length sig' = 64%nat.
Proof.
  intros Hs Hs'.
  rewrite (make_headers_ok _ _ _ _ _ _ Hs), (make_headers_ok _ _ _ _ _ _ Hs').
  cbn [fst].
  exists (headers_of d region
            (authorization_of d secret_id secret_key (now w)
               (Json.dumps (Json.PyDict payload))) (now w)),
         (headers_of d region
            (authorization_of d secret_id secret_key' (now w)
               (Json.dumps (Json.PyDict payload))) (now w)),
         (Spec.algorithm_id ++ Py.lit " Credential=" ++ secret_id
          ++ Py.lit "/"
          ++ Spec.credential_scope (Spec.date (now w)) (service d)
          ++ Py.lit ", SignedHeaders=" ++ Py.lit "content-type;host"
          ++ Py.lit ", Signature="),
         (Spec.signature secret_key (now w) (service d)
            (canonical_request_of d (Json.dumps (Json.PyDict payload)))),
         (Spec.signature secret_key' (now w) (service d)
            (canonical_request_of d (Json.dumps (Json.PyDict payload)))).
  split; [reflexivity |]. split; [reflexivity |].
  split.
  { intros k Hk. unfold headers_of, Spec.header_map.
    cbn [list_to_map foldr uncurry fst snd].
    rewrite !(lookup_insert_ne _ (Py.lit "Authorization") k)
      by (intros E; apply Hk; symmetry; exact E).
    reflexivity. }
  split.
  { destruct (headers_of_lookup d region
                (authorization_of d secret_id secret_key (now w)
                   (Json.dumps (Json.PyDict payload))) (now w)) as (H & _).
    rewrite H. unfold authorization_of, Spec.authorization.
    rewrite <- !app_assoc. reflexivity. }
  split.
  { destruct (headers_of_lookup d region
                (authorization_of d secret_id secret_key' (now w)
                   (Json.dumps (Json.PyDict payload))) (now w)) as (H & _).
    rewrite H. unfold authorization_of, Spec.authorization.
    rewrite <- !app_assoc. reflexivity. }
  unfold Spec.signature, Spec.HMAC_SHA256.
  rewrite !hex_length, !hmac_digest_length. split; reflexivity.
Qed.

(** X4, on the sample data. *)
Lemma secret_key_only_enters_the_signature_witness :
  signable Sample.cvm Sample.secret_key
    (now (Sample.ticking 1700000000)) = true
  /\ signable Sample.cvm (Py.lit "AnotherKey")
       (now (Sample.ticking 1700000000)) = true
  /\ exists hs hs',
       (__make_headers (Sample.client Sample.cvm) Sample.payload
          (Sample.ticking 1700000000)).1 = Ok hs
       /\ (__make_headers
             (subclass_init Sample.cvm Sample.secret_id
                (Py.lit "AnotherKey") Sample.region)
             Sample.payload (Sample.ticking 1700000000)).1 = Ok hs'
       /\ (forall k, k <> Py.lit "Authorization" -> hs !! k = hs' !! k).
Proof.
  split; [reflexivity |]. split; [reflexivity |].
  destruct (secret_key_only_enters_the_signature Sample.cvm Sample.secret_id
              Sample.secret_key (Py.lit "AnotherKey") Sample.region
              Sample.payload (Sample.ticking 1700000000) eq_refl eq_refl)
    as (hs & hs' & _ & _ & _ & H1 & H2 & H3 & _).
  exists hs, hs'. repeat split; assumption.
Defined.

(** X5. The derived signing key is scoped to a secret key, a UTC day and
    a service: two runs with the same secret key and service whose
    timestamps fall on the same day derive the same key, whatever the
    payloads and the other attributes. *)
Theorem signing_key_is_scoped_to_day_and_service self self' timestamp
    timestamp' payload payload' l l' :
  __generate_authorization_locals self timestamp payload = Ok l ->
  __generate_authorization_locals self' timestamp' payload' = Ok l' ->
  _secret_key self = _secret_key self' ->
  _service self = _service self' ->
  timestamp / 86400 = timestamp' / 86400 ->
  secret_signing l = secret_signing l' /\ now_date l = now_date l'.
Proof.
  intros Hl Hl' Ek Es Ed.
  apply generate_authorization_locals_inv in Hl
    as (_ & _ & _ & _ & _ & _ & Hd & Hsig).
  apply generate_authorization_locals_inv in Hl'
    as (_ & _ & _ & _ & _ & _ & Hd' & Hsig').
  assert (Spec.date timestamp = Spec.date timestamp') as E
    by (unfold Spec.date; rewrite Ed; reflexivity).
  rewrite Hsig, Hsig', Hd, Hd', Ek, Es, E. split; reflexivity.
Qed.

(** X5, on two seconds of one day and two payloads. *)
Lemma signing_key_is_scoped_to_day_and_service_witness :
  exists l l',
    __generate_authorization_locals (Sample.client Sample.cvm) 1700000000
      (Json.dumps (Json.PyDict Sample.payload)) = Ok l
    /\ __generate_authorization_locals (Sample.client Sample.cvm_form)
         1700000001 (Json.dumps (Json.PyDict [])) = Ok l'
    /\ secret_signing l = secret_signing l'.
Proof.
  eexists. eexists.
  split; [exact (generate_authorization_locals_ok Sample.cvm Sample.secret_id
                   Sample.secret_key Sample.region 1700000000
                   (Json.dumps (Json.PyDict Sample.payload)) eq_refl) |].
  split; [exact (generate_authorization_locals_ok Sample.cvm_form
                   Sample.secret_id Sample.secret_key Sample.region
                   1700000001 (Json.dumps (Json.PyDict [])) eq_refl) |].
  apply (signing_key_is_scoped_to_day_and_service
           (Sample.client Sample.cvm) (Sample.client Sample.cvm_form)
           1700000000 1700000001
           (Json.dumps (Json.PyDict Sample.payload))
           (Json.dumps (Json.PyDict []))
           _ _
           (generate_authorization_locals_ok Sample.cvm Sample.secret_id
              Sample.secret_key Sample.region 1700000000
              (Json.dumps (Json.PyDict Sample.payload)) eq_refl)
           (generate_authorization_locals_ok Sample.cvm_form
              Sample.secret_id Sample.secret_key Sample.region
              1700000001 (Json.dumps (Json.PyDict [])) eq_refl)
           eq_refl eq_refl eq_refl).
Defined.

(** X6, on the sample data. *)
Lemma json_body_is_the_signed_payload_witness :
  content_type Sample.cvm = Py.lit "application/json"
  /\ signable Sample.cvm Sample.secret_key
       (now (Sample.ticking 1700000000)) = true
  /\ exists req,
       (send_request Sample.no_repr (Sample.client Sample.cvm)
          Sample.payload (Sample.ticking 1700000000)).1 = Ok req
       /\ body req
          = Some (Py.utf8 (Json.dumps (Json.PyDict Sample.payload))).
Proof.
  split; [reflexivity |]. split; [reflexivity |].
  destruct (json_body_is_the_signed_payload Sample.no_repr Sample.cvm
              Sample.secret_id Sample.secret_key Sample.region Sample.payload
              (Sample.ticking 1700000000) eq_refl eq_refl)
    as (req & l & H1 & H2 & _).
  exists req. split; [exact H1 | exact H2].
Defined.

Lemma form_request_of_the_sample :
  (send_request Sample.no_repr (Sample.client Sample.cvm_form) Sample.payload
     (Sample.ticking 1700000000)).1
  = Ok {| url := Py.lit "https://cvm.tencentcloudapi.com";
          headers :=
            headers_of Sample.cvm_form Sample.region
              (authorization_of Sample.cvm_form Sample.secret_id
                 Sample.secret_key 1700000000
                 (Json.dumps (Json.PyDict Sample.payload)))
              1700000000;
          body := Some (Sample.ascii_bytes "Limit=10&Offset=0") |}.
Proof.
  unfold Sample.client, send_request.
  rewrite (make_headers_ok Sample.cvm_form Sample.secret_id Sample.secret_key
             Sample.region Sample.payload (Sample.ticking 1700000000)
             eq_refl).
  destruct (decide _) as [E | _]; [cbv in E; discriminate E |].
  unfold requests_post.
  change (Requests.prepare_body Sample.no_repr
            (Requests.DataArg Sample.payload))
    with (Ok (A := option bytes)
            (Some (Sample.ascii_bytes "Limit=10&Offset=0"))).
  rewrite bind_Ok. reflexivity.
Qed.

(** X7, on the sample data with the form content type. *)
Lemma form_body_is_never_the_signed_payload_witness :
  _content_type (Sample.client Sample.cvm_form) <> Py.lit "application/json"
  /\ exists req,
       (send_request Sample.no_repr (Sample.client Sample.cvm_form)
          Sample.payload (Sample.ticking 1700000000)).1 = Ok req
       /\ body req
          <> Some (Py.utf8 (Json.dumps (Json.PyDict Sample.payload))).
Proof.
  assert (_content_type (Sample.client Sample.cvm_form)
          <> Py.lit "application/json") as Hct
    by (intros E; cbv in E; discriminate E).
  split; [exact Hct |].
  eexists. split; [exact form_request_of_the_sample |].
  exact (form_body_is_never_the_signed_payload Sample.no_repr
           (Sample.client Sample.cvm_form) Sample.payload
           (Sample.ticking 1700000000) _ Hct form_request_of_the_sample).
Defined.

Lemma split_at_separator (sep : N) (a a' b b' : str) :
  sep ∉ a -> sep ∉ a' ->
  a ++ sep :: b = a' ++ sep :: b' -> a = a' /\ b = b'.
Proof.
  revert a'. induction a as [| x a IH]; intros [| x' a'] Ha Ha' E;
    cbn [app] in E.
  - injection E as <-. split; reflexivity.
  - injection E as <- _. exfalso. apply Ha'. left.
  - injection E as -> _. exfalso. apply Ha. left.
  - injection E as <- E.
    destruct (IH a') as [<- <-]; try assumption.
    + intros H. apply Ha. now right.
    + intros H. apply Ha'. now right.
    + split; reflexivity.
Qed.

(** X8. The canonical headers block determines the content type and the
    host it was built from, as long as the content type holds no newline:
    two instances with the same block have the same content type and the
    same host. *)
Theorem canonical_headers_determine_content_type_and_host self self' :
  10%N ∉ _content_type self ->
  10%N ∉ _content_type self' ->
  _canonical_headers self = _canonical_headers self' ->
  _content_type self = _content_type self' /\ _host self = _host self'.
Proof.
  intros Hc Hc' E. unfold _canonical_headers in E.
  apply app_inv_head in E.
  change (nl ++ ?x) with (10%N :: x) in E.
  apply split_at_separator in E as [Ect E]; [| assumption | assumption].
  split; [exact Ect |].
  apply app_inv_head in E. now apply app_inv_tail in E.
Qed.

(** X8, on two sample instances. *)
Lemma canonical_headers_determine_content_type_and_host_witness :
  (10%N ∉ _content_type (Sample.client Sample.cvm))
  /\ _canonical_headers (Sample.client Sample.cvm)
     = _canonical_headers
         (subclass_init Sample.cvm [] [] [])
  /\ _host (Sample.client Sample.cvm)
     = _host (subclass_init Sample.cvm [] [] []).
Proof.
  assert (10%N ∉ _content_type (Sample.client Sample.cvm)) as H.
  { intros H. cbv in H.
    repeat (apply elem_of_cons in H as [H | H]; [discriminate H |]).
    now apply elem_of_nil in H. }
  split; [exact H |]. split; [reflexivity |].
  exact (proj2 (canonical_headers_determine_content_type_and_host
                  (Sample.client Sample.cvm)
                  (subclass_init Sample.cvm [] [] []) H H eq_refl)).
Defined.

(** X9. The payload enters the canonical request only through its
    SHA-256 digest: two runs of one instance have the same canonical
    request if and only if the digests of their payload bytes agree. *)
Theorem canonical_request_pins_the_payload_digest self timestamp timestamp'
    payload payload' l l' :
  __generate_authorization_locals self timestamp payload = Ok l ->
  __generate_authorization_locals self timestamp' payload' = Ok l' ->
  canonical_request l = canonical_request l'
  <-> SHA256.digest (Py.utf8 payload) = SHA256.digest (Py.utf8 payload').
Proof.
  intros Hl Hl'.
  apply generate_authorization_locals_inv in Hl as (_ & _ & Hcr & _).
  apply generate_authorization_locals_inv in Hl' as (_ & _ & Hcr' & _).
  rewrite Hcr, Hcr'. unfold SHA256.hexdigest. split.
  - intros E. do 10 apply app_inv_head in E. now apply hex_inj in E.
  - intros ->. reflexivity.
Qed.

(** X9, on the sample data at two timestamps. *)
Lemma canonical_request_pins_the_payload_digest_witness :
  exists l l',
    __generate_authorization_locals (Sample.client Sample.cvm) 1700000000
      (Json.dumps (Json.PyDict Sample.payload)) = Ok l
    /\ __generate_authorization_locals (Sample.client Sample.cvm) 1704067200
         (Json.dumps (Json.PyDict Sample.payload)) = Ok l'
    /\ canonical_request l = canonical_request l'.
Proof.
  eexists. eexists.
  split; [exact (generate_authorization_locals_ok Sample.cvm Sample.secret_id
                   Sample.secret_key Sample.region 1700000000
                   (Json.dumps (Json.PyDict Sample.payload)) eq_refl) |].
  split; [exact (generate_authorization_locals_ok Sample.cvm Sample.secret_id
                   Sample.secret_key Sample.region 1704067200
                   (Json.dumps (Json.PyDict Sample.payload)) eq_refl) |].
  apply (canonical_request_pins_the_payload_digest
           (Sample.client Sample.cvm) 1700000000 1704067200
           (Json.dumps (Json.PyDict Sample.payload))
           (Json.dumps (Json.PyDict Sample.payload)) _ _
           (generate_authorization_locals_ok Sample.cvm Sample.secret_id
              Sample.secret_key Sample.region 1700000000
              (Json.dumps (Json.PyDict Sample.payload)) eq_refl)
           (generate_authorization_locals_ok Sample.cvm Sample.secret_id
              Sample.secret_key Sample.region 1704067200
              (Json.dumps (Json.PyDict Sample.payload)) eq_refl)).
  reflexivity.
Defined.

End SignerProperties.

(** * The response envelope *)

Section ResponseProperties.
Import Json Response.

Lemma get_Return (o : pyobj) (key : str) (v : pyobj) :
  get o key = Return v
  <-> exists d, o = PyDict d /\ v = default PyNone (dict_get key d).
Proof.
  split.
  - destruct o; try discriminate. intros H. injection H as <-.
    eexists. split; reflexivity.
  - intros (d & -> & ->). reflexivity.
Qed.

Lemma get_Throw (o : pyobj) (key : str) (e : error) :
  get o key = Throw e
  <-> e = AttributeError /\ forall d, o <> PyDict d.
Proof.
  split.
  - destruct o; try discriminate; intros H; injection H as <-;
      split; try reflexivity; intros d' E; discriminate E.
  - intros [-> H]. destruct o; try reflexivity. now destruct (H d).
Qed.

Lemma getitem_Return (o : pyobj) (key : str) (v : pyobj) :
  getitem o key = Return v
  <-> exists d, o = PyDict d /\ dict_get key d = Some v.
Proof.
  split.
  - destruct o as [| | | | | d]; try discriminate. cbn [getitem].
    destruct (dict_get key d) eqn:E; [| discriminate].
    intros H. injection H as <-. now exists d.
  - intros (d & -> & H). cbn [getitem]. rewrite H. reflexivity.
Qed.

Lemma bind_Return {E A B : Type} (r : outcome E A) (k : A -> outcome E B)
    (b : B) :
  (r ≫= k) = Return b <-> exists a, r = Return a /\ k a = Return b.
Proof.
  split.
  - destruct r as [a | e]; [now exists a | discriminate].
  - intros (a & -> & H). exact H.
Qed.

Lemma bind_Throw {E A B : Type} (r : outcome E A) (k : A -> outcome E B)
    (e : E) :
  (r ≫= k) = Throw e
  <-> r = Throw e \/ exists a, r = Return a /\ k a = Throw e.
Proof.
  split.
  - destruct r as [a | e']; intros H;
      [right; exists a; split; [reflexivity | exact H] |].
    left. injection H as <-. reflexivity.
  - intros [-> | (a & -> & H)]; [reflexivity | exact H].
Qed.

Lemma truthy_default_get (key : str) (d : dict) :
  truthy (default PyNone (dict_get key d)) = true ->
  exists v, dict_get key d = Some v /\ truthy v = true.
Proof.
  destruct (dict_get key d) as [v |]; [| discriminate].
  intros H. now exists v.
Qed.

(** The decoding on a response whose [Response] entry is the dict
    [data]. *)
Lemma decode_response_data (d data : dict) :
  dict_get (Py.lit "Response") d = Some (PyDict data) ->
  decode_response (PyDict d)
  = match dict_get (Py.lit "Error") data with
    | Some err =>
        if truthy err then
          code ← getitem err (Py.lit "Code");
          message ← getitem err (Py.lit "Message");
          request_id ← getitem (PyDict data) (Py.lit "RequestId");
          Throw (TencentCloudSDKException code message request_id)
        else Return (PyDict data)
    | None => Return (PyDict data)
    end.
Proof.
  intros H. unfold decode_response. cbn [get]. rewrite H.
  cbv [default from_option id mbind outcome_bind get getitem].
  destruct (dict_get (Py.lit "Error") data) as [err |]; [| reflexivity].
  destruct (truthy err); reflexivity.
Qed.

Lemma decode_response_no_envelope (r : pyobj) :
  (forall d data,
      r = PyDict d -> dict_get (Py.lit "Response") d <> Some (PyDict data)) ->
  decode_response r = Throw AttributeError.
Proof.
  intros H. destruct r as [| b | z | s | l | d]; try reflexivity.
  unfold decode_response. cbn [get].
  destruct (dict_get (Py.lit "Response") d) as [[| b | z | s | l | data] |]
    eqn:E; try reflexivity.
  now destruct (H d data eq_refl).
Qed.

(** The outcome on a truthy [Error] entry. *)
Lemma decode_response_error (d data : dict) (err : pyobj) :
  dict_get (Py.lit "Response") d = Some (PyDict data) ->
  dict_get (Py.lit "Error") data = Some err ->
  truthy err = true ->
  decode_response (PyDict d)
  = match err with
    | PyDict e =>
        match dict_get (Py.lit "Code") e with
        | None => Throw (KeyError (Py.lit "Code"))
        | Some code =>
            match dict_get (Py.lit "Message") e with
            | None => Throw (KeyError (Py.lit "Message"))
            | Some message =>
                match dict_get (Py.lit "RequestId") data with
                | None => Throw (KeyError (Py.lit "RequestId"))
                | Some request_id =>
                    Throw (TencentCloudSDKException code message request_id)
                end
            end
        end
    | _ => Throw TypeError
    end.
Proof.
  intros Hd He Ht. rewrite (decode_response_data d data Hd), He, Ht.
  cbv [mbind outcome_bind getitem].
  destruct err as [| b | z | s | l | e]; try reflexivity.
  destruct (dict_get (Py.lit "Code") e); [| reflexivity].
  destruct (dict_get (Py.lit "Message") e); [| reflexivity].
  destruct (dict_get (Py.lit "RequestId") data); reflexivity.
Qed.

(** X10. [TencentCloudSDKException] is raised exactly when the response
    is an envelope whose [Response] object holds a non-empty [Error] dict
    with [Code] and [Message] and a [RequestId]; the exception carries
    these three values unchanged. *)
Theorem sdk_exception_carries_the_server_error r code message request_id :
  decode_response r
  = Throw (TencentCloudSDKException code message request_id)
  <-> exists d data e,
        r = PyDict d
        /\ dict_get (Py.lit "Response") d = Some (PyDict data)
        /\ dict_get (Py.lit "Error") data = Some (PyDict e)
        /\ e <> []
        /\ dict_get (Py.lit "Code") e = Some code
        /\ dict_get (Py.lit "Message") e = Some message
        /\ dict_get (Py.lit "RequestId") data = Some request_id.
Proof.
  split.
  - intros H.
    destruct r as [| b | z | s | l | d]; try discriminate H.
    destruct (dict_get (Py.lit "Response") d) as [[| b | z | s | l | data] |]
      eqn:Hd;
      try (rewrite decode_response_no_envelope in H;
           [discriminate H | intros d' data' E; injection E as <-;
                             rewrite Hd; discriminate]).
    destruct (dict_get (Py.lit "Error") data) as [err |] eqn:He;
      [| rewrite (decode_response_data d data Hd), He in H; discriminate H].
    destruct (truthy err) eqn:Ht;
      [| rewrite (decode_response_data d data Hd), He, Ht in H;
         discriminate H].
    rewrite (decode_response_error d data err Hd He Ht) in H.
    destruct err as [| b | z | s | l | e]; try discriminate H.
    destruct (dict_get (Py.lit "Code") e) as [c |] eqn:Hc;
      [| discriminate H].
    destruct (dict_get (Py.lit "Message") e) as [m |] eqn:Hm;
      [| discriminate H].
    destruct (dict_get (Py.lit "RequestId") data) as [rid |] eqn:Hr;
      [| discriminate H].
    injection H as <- <- <-.
    exists d, data, e. repeat split; try assumption.
    intros ->. discriminate Ht.
  - intros (d & data & e & -> & Hd & He & Hne & Hc & Hm & Hr).
    rewrite (decode_response_error d data (PyDict e) Hd He), Hc, Hm, Hr;
      [reflexivity |].
    destruct e; [now destruct Hne | reflexivity].
Qed.

(** X11. A value is returned exactly when the response is an envelope
    whose [Response] object has no [Error] entry or a falsy one ([null],
    [{}], [0], [""], [false], [[]]); the value is that [Response] object
    itself. A response with a truthy [Error] is never returned. *)
Theorem returned_response_has_no_error r v :
  decode_response r = Return v
  <-> exists d data,
        r = PyDict d
        /\ dict_get (Py.lit "Response") d = Some (PyDict data)
        /\ v = PyDict data
        /\ truthy (default PyNone (dict_get (Py.lit "Error") data)) = false.
Proof.
  split.
  - intros H.
    destruct r as [| b | z | s | l | d]; try discriminate H.
    destruct (dict_get (Py.lit "Response") d) as [[| b | z | s | l | data] |]
      eqn:Hd;
      try (rewrite decode_response_no_envelope in H;
           [discriminate H | intros d' data' E; injection E as <-;
                             rewrite Hd; discriminate]).
    exists d, data. split; [reflexivity |]. split; [exact Hd |].
    destruct (dict_get (Py.lit "Error") data) as [err |] eqn:He.
    + destruct (truthy err) eqn:Ht.
      * rewrite (decode_response_error d data err Hd He Ht) in H.
        destruct err as [| b | z | s | l | e]; try discriminate H.
        destruct (dict_get (Py.lit "Code") e); [| discriminate H].
        destruct (dict_get (Py.lit "Message") e); [| discriminate H].
        destruct (dict_get (Py.lit "RequestId") data); discriminate H.
      * rewrite (decode_response_data d data Hd), He, Ht in H.
        injection H as <-. split; [reflexivity | exact Ht].
    + rewrite (decode_response_data d data Hd), He in H.
      injection H as <-. split; reflexivity.
  - intros (d & data & -> & Hd & -> & Ht).
    rewrite (decode_response_data d data Hd).
    destruct (dict_get (Py.lit "Error") data) as [err |]; [| reflexivity].
    cbn [default from_option id] in Ht. rewrite Ht. reflexivity.
Qed.

(** X12. A truthy [Error] entry is reported as the SDK exception only if
    it is a dict and [Code], [Message] and [RequestId] are all there.
    Otherwise the caller gets a [KeyError] for the first of the three
    that is missing, or a [TypeError] when [Error] is no dict, and the
    server's error is not reported. *)
Theorem incomplete_error_raises_key_error d data err :
  dict_get (Py.lit "Response") d = Some (PyDict data) ->
  dict_get (Py.lit "Error") data = Some err ->
  truthy err = true ->
  decode_response (PyDict d)
  = match err with
    | PyDict e =>
        match dict_get (Py.lit "Code") e with
        | None => Throw (KeyError (Py.lit "Code"))
        | Some code =>
            match dict_get (Py.lit "Message") e with
            | None => Throw (KeyError (Py.lit "Message"))
            | Some message =>
                match dict_get (Py.lit "RequestId") data with
                | None => Throw (KeyError (Py.lit "RequestId"))
                | Some request_id =>
                    Throw (TencentCloudSDKException code message request_id)
                end
            end
        end
    | _ => Throw TypeError
    end.
Proof. apply decode_response_error. Qed.

(** X12, on an error response that lacks its [RequestId]. *)
Lemma incomplete_error_raises_key_error_witness :
  let e := [(Py.lit "Code", PyStr (Py.lit "AuthFailure"));
            (Py.lit "Message", PyStr (Py.lit "expired"))] in
  let data := [(Py.lit "Error", PyDict e)] in
  let d := [(Py.lit "Response", PyDict data)] in
  dict_get (Py.lit "Response") d = Some (PyDict data)
  /\ dict_get (Py.lit "Error") data = Some (PyDict e)
  /\ truthy (PyDict e) = true
  /\ decode_response (PyDict d) = Throw (KeyError (Py.lit "RequestId")).
Proof.
  cbv zeta. repeat (split; [reflexivity |]).
  exact (incomplete_error_raises_key_error
           [(Py.lit "Response",
             PyDict [(Py.lit "Error",
                      PyDict [(Py.lit "Code", PyStr (Py.lit "AuthFailure"));
                              (Py.lit "Message", PyStr (Py.lit "expired"))])])]
           [(Py.lit "Error",
             PyDict [(Py.lit "Code", PyStr (Py.lit "AuthFailure"));
                     (Py.lit "Message", PyStr (Py.lit "expired"))])]
           (PyDict [(Py.lit "Code", PyStr (Py.lit "AuthFailure"));
                    (Py.lit "Message", PyStr (Py.lit "expired"))])
           eq_refl eq_refl eq_refl).
Defined.

(** X13. [AttributeError] is raised exactly when the response is not an
    envelope: it is no dict, or its [Response] entry is missing or is not
    a dict. *)
Theorem missing_envelope_raises_attribute_error r :
  decode_response r = Throw AttributeError
  <-> ~ exists d data,
          r = PyDict d
          /\ dict_get (Py.lit "Response") d = Some (PyDict data).
Proof.
  split.
  - intros H (d & data & -> & Hd).
    destruct (dict_get (Py.lit "Error") data) as [err |] eqn:He;
      [| rewrite (decode_response_data d data Hd), He in H; discriminate H].
    destruct (truthy err) eqn:Ht;
      [| rewrite (decode_response_data d data Hd), He, Ht in H;
         discriminate H].
    rewrite (decode_response_error d data err Hd He Ht) in H.
    destruct err as [| b | z | s | l | e]; try discriminate H.
    destruct (dict_get (Py.lit "Code") e); [| discriminate H].
    destruct (dict_get (Py.lit "Message") e); [| discriminate H].
    destruct (dict_get (Py.lit "RequestId") data); discriminate H.
  - intros H. apply decode_response_no_envelope.
    intros d data -> Hd. apply H. now exists d, data.
Qed.

End ResponseProperties.

(** * The workbook reader *)

Section XlsxProperties.
Import Xlsx.

Variable other : Type.
Variable path_exists : str -> bool.
Variable load_workbook : str -> option (gmap str (worksheet other)).

Lemma outcome_bind_Return {E A B : Type} (a : A) (k : A -> outcome E B) :
  (Return a ≫= k) = k a.
Proof. reflexivity. Qed.

(** [index] finds the first column whose header is the name. *)
Lemma index_first (header : str) (headers : list (content other)) :
  contains header headers = true ->
  headers !! index header headers = Some (CStr header)
  /\ forall j, (j < index header headers)%nat ->
               headers !! j <> Some (CStr header).
Proof.
  induction headers as [| x headers IH]; [discriminate |].
  cbn [contains existsb index]. destruct (is_header header x) eqn:Hx.
  - intros _. split; [| intros j Hj; inversion Hj].
    destruct x as [| s | o]; try discriminate Hx.
    cbn [is_header] in Hx. apply bool_decide_eq_true in Hx as ->.
    reflexivity.
  - cbn [orb]. intros H. destruct (IH H) as [Hi Hlt]. split; [exact Hi |].
    intros [| j] Hj.
    + cbn [lookup list_lookup]. intros E. injection E as ->.
      cbn [is_header] in Hx. apply bool_decide_eq_false in Hx.
      now apply Hx.
    + apply Hlt. apply Nat.succ_lt_mono. exact Hj.
Qed.

(** X14. [read_sheet_cell] checks the header before the row number: for
    a name that is no header it returns [None] whatever the row number,
    also below 1, while for a known header a row number below 1 raises
    [ValueError]. *)
Theorem unknown_header_hides_the_row_check
    (self : XlsxWorkbook other) headers row_num header :
  read_sheet_header self = Return (Some headers) ->
  (contains header headers = false ->
   read_sheet_cell self row_num header = Return CNone)
  /\ (contains header headers = true ->
      row_num < 1 ->
      read_sheet_cell self row_num header = Throw ValueError_row_below_one).
Proof.
  intros Hh. unfold read_sheet_cell. rewrite Hh, outcome_bind_Return.
  split.
  - intros ->. reflexivity.
  - intros -> Hlt. cbn [negb]. unfold read_sheet_row.
    unfold read_sheet_header in Hh.
    destruct (sheet self) as [ws |]; [| discriminate Hh].
    replace (row_num <? 1) with true by (symmetry; apply Z.ltb_lt; lia).
    reflexivity.
Qed.

(** X15. With a sheet selected, a known header and a row number within
    the sheet, [read_sheet_cell] returns the content of that row in the
    first column whose header is the name; it raises [IndexError] only if
    the row is shorter than that column. *)
Theorem read_sheet_cell_reads_the_first_matching_column
    (self : XlsxWorkbook other) ws row_num header :
  sheet self = Some ws ->
  max_row ws <> 0 ->
  getitem ws 1 <> [] ->
  getitem ws row_num <> [] ->
  1 <= row_num <= max_row ws ->
  contains header (map value (getitem ws 1)) = true ->
  let column := index header (map value (getitem ws 1)) in
  read_sheet_cell self row_num header
  = match getitem ws row_num !! column with
    | Some c => Return (value c)
    | None => Throw IndexError
    end
  /\ map value (getitem ws 1) !! column = Some (CStr header)
  /\ forall j, (j < column)%nat ->
               map value (getitem ws 1) !! j <> Some (CStr header).
Proof.
  intros Hs Hmax Hhead Hrow Hn Hin column.
  split; [| now apply index_first].
  unfold read_sheet_cell, read_sheet_header, read_sheet_row. rewrite Hs.
  replace (max_row ws =? 0) with false by (symmetry; apply Z.eqb_neq; lia).
  replace (row_num <? 1) with false by (symmetry; apply Z.ltb_ge; lia).
  replace (max_row ws <? row_num) with false
    by (symmetry; apply Z.ltb_ge; lia).
  unfold get_row_value.
  destruct (getitem ws 1) as [| h hs] eqn:E1; [now destruct Hhead |].
  destruct (getitem ws row_num) as [| c cs] eqn:En; [now destruct Hrow |].
  rewrite !outcome_bind_Return, Hin. cbn [negb]. fold column.
  rewrite list_lookup_fmap.
  destruct ((c :: cs) !! column); reflexivity.
Qed.

(** X16. On a row taken from the selected sheet, [get_row_cell_value]
    and [read_sheet_cell] agree: looking a header up in [sheet[n]] gives
    what [read_sheet_cell(n, header)] gives, for every row number within
    the sheet. *)
Theorem get_row_cell_value_agrees_with_read_sheet_cell
    (self : XlsxWorkbook other) ws row_num header :
  sheet self = Some ws ->
  1 <= row_num <= max_row ws ->
  get_row_cell_value self (getitem ws row_num) header
  = read_sheet_cell self row_num header.
Proof.
  intros Hs Hn.
  unfold get_row_cell_value, read_sheet_cell, read_sheet_header,
    read_sheet_row.
  rewrite Hs.
  replace (row_num <? 1) with false by (symmetry; apply Z.ltb_ge; lia).
  replace (max_row ws <? row_num) with false
    by (symmetry; apply Z.ltb_ge; lia).
  destruct (max_row ws =? 0).
  - rewrite !outcome_bind_Return. now destruct (getitem ws row_num).
  - rewrite !outcome_bind_Return.
    destruct (get_row_value (getitem ws 1)) as [headers |];
      [| now destruct (getitem ws row_num)].
    destruct (contains header headers); cbn [negb];
      [| now destruct (getitem ws row_num)].
    destruct (getitem ws row_num) as [| c cs]; [reflexivity |].
    cbn [get_row_value]. rewrite outcome_bind_Return, list_lookup_fmap.
    destruct ((c :: cs) !! index header headers); reflexivity.
Qed.

(** X17. A reader built without a file name has neither workbook nor
    sheet, whatever sheet name is passed; every reading method then
    raises the [ValueError] for the missing sheet, [read_sheet_row] and
    [read_sheet_cell] also for a row number below 1, and only
    [get_row_cell_value] on an empty row returns [None]. *)
Theorem reader_without_file_raises_on_every_read sheet_name row_num header
    (c : cell other) (row : list (cell other)) :
  exists self,
    __init__ path_exists load_workbook [] sheet_name = Return self
    /\ workbook self = None
    /\ sheet self = None
    /\ read_sheet_header self = Throw ValueError_sheet_not_selected
    /\ read_iter_sheet_data self = Throw ValueError_sheet_not_selected
    /\ read_sheet_row self row_num = Throw ValueError_sheet_not_selected
    /\ read_sheet_cell self row_num header
       = Throw ValueError_sheet_not_selected
    /\ get_row_cell_value self (c :: row) header
       = Throw ValueError_sheet_not_selected
    /\ get_row_cell_value self [] header = Return CNone
    /\ select_sheet self sheet_name = Throw ValueError_workbook_not_open.
Proof.
  exists {| workbook := None; sheet := None |}. repeat split.
Qed.

(** X18. The constructor with a file name: a path that does not exist
    raises [SystemError] before anything is loaded; a loaded workbook
    without the named sheet raises [KeyError]; the reader comes back with
    its sheet selected exactly when the file exists, loads, and holds a
    sheet of that name. *)
Theorem constructor_selects_the_sheet_iff_it_exists filename sheet_name
    self :
  filename <> [] ->
  sheet_name <> [] ->
  (path_exists filename = false ->
   __init__ path_exists load_workbook filename sheet_name
   = Throw SystemError_file_missing)
  /\ (forall wb,
         path_exists filename = true ->
         load_workbook filename = Some wb ->
         wb !! sheet_name = None ->
         __init__ path_exists load_workbook filename sheet_name
         = Throw (KeyError sheet_name))
  /\ (__init__ path_exists load_workbook filename sheet_name = Return self
      <-> exists wb ws,
            path_exists filename = true
            /\ load_workbook filename = Some wb
            /\ wb !! sheet_name = Some ws
            /\ self = {| workbook := Some wb; sheet := Some ws |}).
Proof.
  intros Hf Hn. unfold __init__, open_workbook, select_sheet.
  rewrite (bool_decide_eq_false_2 _ Hf).
  split; [intros ->; reflexivity |].
  split.
  { intros wb -> -> Hno. cbn [negb workbook].
    rewrite outcome_bind_Return. cbn [workbook].
    rewrite (bool_decide_eq_false_2 _ Hn), Hno. reflexivity. }
  destruct (path_exists filename); cbn [negb].
  - destruct (load_workbook filename) as [wb |].
    + rewrite outcome_bind_Return. cbn [workbook sheet].
      rewrite (bool_decide_eq_false_2 _ Hn).
      destruct (wb !! sheet_name) as [ws |] eqn:Hws.
      * split.
        -- intros H. injection H as <-. now exists wb, ws.
        -- intros (wb' & ws' & _ & E1 & E2 & ->).
           injection E1 as <-. rewrite Hws in E2. injection E2 as <-.
           reflexivity.
      * split; [discriminate |].
        intros (wb' & ws' & _ & E1 & E2 & _).
        injection E1 as <-. rewrite Hws in E2. discriminate E2.
    + split; [discriminate |].
      intros (wb' & ws' & _ & E1 & _). discriminate E1.
  - split; [discriminate |].
    intros (wb' & ws' & E & _). discriminate E.
Qed.

End XlsxProperties.

Section XlsxSamples.
Import Xlsx.

(** X14, on the sample sheet and row number 0. *)
Lemma unknown_header_hides_the_row_check_witness :
  read_sheet_header SampleSheet.reader
  = Return (Some (map value (getitem SampleSheet.people 1)))
  /\ contains (Py.lit "salary") (map value (getitem SampleSheet.people 1))
     = false
  /\ read_sheet_cell SampleSheet.reader 0 (Py.lit "salary") = Return CNone
  /\ contains (Py.lit "age") (map value (getitem SampleSheet.people 1))
     = true
  /\ read_sheet_cell SampleSheet.reader 0 (Py.lit "age")
     = Throw ValueError_row_below_one.
Proof.
  cbv zeta.
  destruct (unknown_header_hides_the_row_check Z SampleSheet.reader
              (map value (getitem SampleSheet.people 1)) 0
              (Py.lit "salary") eq_refl) as [H1 _].
  destruct (unknown_header_hides_the_row_check Z SampleSheet.reader
              (map value (getitem SampleSheet.people 1)) 0
              (Py.lit "age") eq_refl) as [_ H2].
  split; [reflexivity |]. split; [reflexivity |].
  split; [exact (H1 eq_refl) |]. split; [reflexivity |].
  apply H2; [reflexivity | lia].
Defined.

(** X15, on the sample sheet: the repeated header [name] reads the first
    of its two columns. *)
Lemma read_sheet_cell_reads_the_first_matching_column_witness :
  getitem SampleSheet.people 1 <> []
  /\ 1 <= 2 <= max_row SampleSheet.people
  /\ read_sheet_cell SampleSheet.reader 2 (Py.lit "name")
     = Return (CStr (Py.lit "ann")).
Proof.
  split; [discriminate |]. split; [cbv; split; discriminate |].
  exact (proj1 (read_sheet_cell_reads_the_first_matching_column Z
                  SampleSheet.reader SampleSheet.people 2 (Py.lit "name")
                  eq_refl
                  ltac:(discriminate) ltac:(discriminate) ltac:(discriminate)
                  ltac:(cbv; split; discriminate) eq_refl)).
Defined.

(** X16, on the sample sheet. *)
Lemma get_row_cell_value_agrees_with_read_sheet_cell_witness :
  1 <= 3 <= max_row SampleSheet.people
  /\ get_row_cell_value SampleSheet.reader (getitem SampleSheet.people 3)
       (Py.lit "age")
     = read_sheet_cell SampleSheet.reader 3 (Py.lit "age").
Proof.
  split; [cbv; split; discriminate |].
  apply (get_row_cell_value_agrees_with_read_sheet_cell Z SampleSheet.reader
           SampleSheet.people 3 (Py.lit "age") eq_refl).
  cbv. split; discriminate.
Defined.

(** X18, on the sample file system. *)
Lemma constructor_selects_the_sheet_iff_it_exists_witness :
  Py.lit "people.xlsx" <> []
  /\ Py.lit "people" <> []
  /\ __init__ SampleSheet.path_exists SampleSheet.load_workbook
       (Py.lit "people.xlsx") (Py.lit "people")
     = Return SampleSheet.reader.
Proof.
  split; [discriminate |]. split; [discriminate |].
  apply (constructor_selects_the_sheet_iff_it_exists Z
           SampleSheet.path_exists SampleSheet.load_workbook
           (Py.lit "people.xlsx") (Py.lit "people") SampleSheet.reader
           ltac:(discriminate) ltac:(discriminate)).
  exists SampleSheet.book, SampleSheet.people.
  repeat split.
Defined.

End XlsxSamples.
